(** * Sri Lanka vehicle scraper: fetch, parse and coordination

    A shallow embedding of [vehicle_scraper.py] (class [VehicleInfoScraper]:
    [parse_vehicle_info], [get_vehicle_info], [process_vehicles]) and of the
    background task of [app.py] ([run_scraping_task], [cancel_scraping]),
    followed by the properties the specification states about them.

    Python dictionaries with string keys are finite maps [gmap string _];
    strings are byte strings, with case folding and white space as Python
    defines them on the ASCII range.  What the program obtains from outside
    (the HTTP server, the clock, the HTML parser of the bs4 library, the
    file system) is an explicit argument of the function that uses it. *)

From stdpp Require Import gmap strings list fin_maps pretty.
From Stdlib Require Import Ascii QArith Qround.

Set Warnings "-register-all".

(** ** Python string operations *)

Module Str.

(** [str.isspace] on one ASCII character: TAB..CR, FS..US and the blank. *)
Definition isspace (c : ascii) : bool :=
  let n := nat_of_ascii c in
  ((9 <=? n) && (n <=? 13)) || ((28 <=? n) && (n <=? 32)).

Definition lower_ascii (c : ascii) : ascii :=
  let n := nat_of_ascii c in
  if (65 <=? n) && (n <=? 90) then ascii_of_nat (n + 32) else c.

(** [s.lower()] *)
Fixpoint lower (s : string) : string :=
  match s with
  | EmptyString => EmptyString
  | String c s' => String (lower_ascii c) (lower s')
  end.

(** [s.lstrip()] *)
Fixpoint lstrip (s : string) : string :=
  match s with
  | EmptyString => EmptyString
  | String c s' => if isspace c then lstrip s' else s
  end.

(** [s.strip()] *)
Definition strip (s : string) : string :=
  String.rev (lstrip (String.rev (lstrip s))).

(** [needle in hay] *)
Fixpoint contains (needle hay : string) : bool :=
  String.prefix needle hay ||
  match hay with
  | EmptyString => false
  | String _ hay' => contains needle hay'
  end.

(** [''.join(l)] *)
Definition join (sep : string) (l : list string) : string := String.concat sep l.

Definition nonempty (s : string) : bool :=
  match s with EmptyString => false | _ => true end.

Fixpoint drop (n : nat) (s : string) : string :=
  match n, s with
  | O, _ => s
  | S n', String _ s' => drop n' s'
  | S _, EmptyString => EmptyString
  end.

Definition upper_ascii (c : ascii) : ascii :=
  let n := nat_of_ascii c in
  if (97 <=? n) && (n <=? 122) then ascii_of_nat (n - 32) else c.

(** [s.upper()] *)
Fixpoint upper (s : string) : string :=
  match s with
  | EmptyString => EmptyString
  | String c s' => String (upper_ascii c) (upper s')
  end.

(** [s.replace(a, b)], [a] and [b] single characters *)
Fixpoint replace (a b : ascii) (s : string) : string :=
  match s with
  | EmptyString => EmptyString
  | String c s' => String (if Ascii.eqb c a then b else c) (replace a b s')
  end.

(** [s.split(sep)], [sep] a single character *)
Fixpoint split (sep : ascii) (s : string) : list string :=
  match s with
  | EmptyString => [EmptyString]
  | String c s' =>
      if Ascii.eqb c sep then EmptyString :: split sep s'
      else match split sep s' with
           | cur :: rest => String c cur :: rest
           | [] => [String c EmptyString]
           end
  end.

(** [s.endswith(suffix)] *)
Definition endswith (suffix s : string) : bool :=
  String.prefix (String.rev suffix) (String.rev s).

End Str.

Notation "needle 'in_' hay" := (Str.contains needle hay) (at level 65, no associativity).

(** ** The two regular expressions of the parser

    [re.search] is a backtracking matcher: it tries each start position from
    the left, greedy quantifiers first try the longest repetition and give
    characters back one at a time.  The combinators below are that matcher
    specialised to the shapes [LIT\s*:] and [LIT\s*:\s*(.+)]; a continuation
    returns the captured group, [None] makes the caller backtrack. *)

Module Re.

(** [\s*] followed by [k], greedy with backtracking. *)
Fixpoint ws_star {A} (k : string → option A) (t : string) : option A :=
  match t with
  | EmptyString => k t
  | String c t' =>
      if Str.isspace c
      then match ws_star k t' with Some r => Some r | None => k t end
      else k t
  end.

(** a literal character followed by [k] *)
Definition char {A} (c : ascii) (k : string → option A) (t : string) : option A :=
  match t with
  | String c' t' => if Ascii.eqb c c' then k t' else None
  | EmptyString => None
  end.

(** a literal string followed by [k] *)
Definition lit {A} (l : string) (k : string → option A) (t : string) : option A :=
  if String.prefix l t then k (Str.drop (String.length l) t) else None.

(** [.] matches every character except the line feed. *)
Definition is_dot (c : ascii) : bool := negb (Ascii.eqb c "010"%char).

Fixpoint take_dots (t : string) : string :=
  match t with
  | EmptyString => EmptyString
  | String c t' => if is_dot c then String c (take_dots t') else EmptyString
  end.

(** [(.+)] at the end of the pattern: the longest run, at least one character. *)
Definition dot_plus (t : string) : option string :=
  let g := take_dots t in if Str.nonempty g then Some g else None.

(** [re.search]: the match at the leftmost start position that has one. *)
Fixpoint search {A} (m : string → option A) (s : string) : option A :=
  match m s with
  | Some r => Some r
  | None => match s with
            | EmptyString => None
            | String _ s' => search m s'
            end
  end.

(** [re.compile(LIT + r'\s*:').search(s)], as a truth value *)
Definition search_label (l s : string) : bool :=
  bool_decide (is_Some (search (lit l (ws_star (char ":"%char (λ _, Some tt)))) s)).

(** [re.search(LIT + r'\s*:\s*(.+)', s)], group 1 of the match *)
Definition search_value (l s : string) : option string :=
  search (lit l (ws_star (char ":"%char (ws_star dot_plus)))) s.

End Re.

(** ** The parsed document (bs4)

    A [Tag] has a name, the list held by its multi-valued [class] attribute
    and its contents; a [NavigableString] is a piece of text.  Comments and
    the like, which [get_text] skips, are not represented. *)

Inductive node : Type :=
| NavigableString (s : string)
| Tag (name : string) (class_ : list string) (contents : list node).

Module Bs4.

(** [tag.descendants] in document order, each with its parent. *)
Fixpoint descendants_of (parent : node) (n : node) : list (node * node) :=
  (parent, n) ::
  match n with
  | NavigableString _ => []
  | Tag _ _ cs =>
      (fix go (l : list node) : list (node * node) :=
         match l with
         | [] => []
         | c :: l' => descendants_of n c ++ go l'
         end) cs
  end.

Definition contents (n : node) : list node :=
  match n with NavigableString _ => [] | Tag _ _ cs => cs end.

Definition descendants_p (n : node) : list (node * node) :=
  concat (map (descendants_of n) (contents n)).

Definition descendants (n : node) : list node := map snd (descendants_p n).

Definition has_name (nm : string) (n : node) : bool :=
  match n with
  | Tag nm' _ _ => String.eqb nm' nm
  | NavigableString _ => false
  end.

(** [tag.find_all(name)] *)
Definition find_all (nm : string) (n : node) : list node :=
  List.filter (has_name nm) (descendants n).

(** matching of [class_=value] against the class list of a tag: one of the
    classes is the value, or the classes joined by blanks are. *)
Definition class_matches (value : string) (n : node) : bool :=
  match n with
  | Tag _ cls _ => existsb (String.eqb value) cls || String.eqb (Str.join " " cls) value
  | NavigableString _ => false
  end.

(** [tag.find(name, class_=value)] *)
Definition find_class (nm value : string) (n : node) : option node :=
  head (List.filter (λ d, has_name nm d && class_matches value d) (descendants n)).

(** [tag.string] *)
Fixpoint string_ (n : node) : option string :=
  match n with
  | NavigableString s => Some s
  | Tag _ _ [c] => string_ c
  | Tag _ _ _ => None
  end.

(** the [.string] of a tag proper: a [NavigableString] met by [find] is
    never a candidate when a tag name is given. *)
Definition text_matches (l : string) (n : node) : bool :=
  match string_ n with
  | Some s => Re.search_label l s
  | None => false
  end.

(** [tag.find(name, text=re.compile(LIT\s*:))], returned with its
    [.parent]. *)
Definition find_text (nm l : string) (n : node) : option (node * node) :=
  head (List.filter (λ d, has_name nm d.2 && text_matches l d.2) (descendants_p n)).

Definition text_of (n : node) : option string :=
  match n with NavigableString s => Some s | Tag _ _ _ => None end.

(** [tag.get_text(strip=True)]: every string below the tag, stripped, the
    empty ones dropped, joined without separator. *)
Definition get_text_strip (n : node) : string :=
  Str.join "" (List.filter (λ s, Str.nonempty s) (map Str.strip (omap text_of (descendants n)))).

End Bs4.

(** ** Records

    The dictionaries the scraper returns: every value is a string. *)

Abbreviation dict := (gmap string string).

(** truth value of a dictionary in [if result:] *)
Definition truthy (d : dict) : bool := bool_decide (d ≠ ∅).

(** the failure dictionary built at lines 162-167, 208-213, 217-222 and
    252-257 of [vehicle_scraper.py] *)
Definition failure_record (vehicle_number status error now : string) : dict :=
  list_to_map [("vehicle_number", vehicle_number); ("status", status);
               ("error", error); ("timestamp", now)].

(** the result-status taxonomy, with the string the code writes for each
    of its values *)
Inductive status : Type := success | fetch_failed | parse_failed.

Definition status_string (s : status) : string :=
  match s with
  | success => "success"
  | fetch_failed => "failed"
  | parse_failed => "parse_error"
  end.

(** the fields filled from the rows of the details table *)
Definition table_fields : list string :=
  ["name_of_ownership"; "engine_number"; "vehicle_class"; "conditions_and_notes";
   "make"; "model"; "year_of_manufacture"].

(** the eight extracted attributes of a record *)
Definition extracted_fields : list string := "report_date" :: table_fields.

(** ** [VehicleInfoScraper.parse_vehicle_info] *)

Section Parse.

(** [BeautifulSoup(html_content, 'html.parser')]: the document, or the
    text of the exception it raises. *)
Variable BeautifulSoup : string → string + node.

Definition initial_result (vehicle_number now : string) : dict :=
  list_to_map [("vehicle_number", vehicle_number); ("report_date", "");
               ("name_of_ownership", ""); ("engine_number", "");
               ("vehicle_class", ""); ("conditions_and_notes", "");
               ("make", ""); ("model", ""); ("year_of_manufacture", "");
               ("status", "success"); ("timestamp", now)].

(** the [if]/[elif] chain of lines 143-156: the key a label writes to *)
Definition label_field (label_text : string) : option string :=
  if ("name of the absolute ownership" in_ label_text) || ("mortgage if any" in_ label_text)
  then Some "name_of_ownership"
  else if "engine number" in_ label_text then Some "engine_number"
  else if "vehicle class" in_ label_text then Some "vehicle_class"
  else if "conditions and notes" in_ label_text then Some "conditions_and_notes"
  else if ("make" in_ label_text) && negb ("year" in_ label_text) then Some "make"
  else if "model" in_ label_text then Some "model"
  else if "year of manufacture" in_ label_text then Some "year_of_manufacture"
  else None.

(** what a row assigns, if anything: the key and the value text *)
Definition row_assignment (row : node) : option (string * string) :=
  let cells := Bs4.find_all "td" row in
  if 3 <=? length cells then
    match cells !! 0%nat, cells !! 2%nat with
    | Some label_cell, Some value_cell =>
        let label_text := Str.lower (Bs4.get_text_strip label_cell) in
        let value_text := Bs4.get_text_strip value_cell in
        match label_field label_text with
        | Some field => Some (field, value_text)
        | None => None
        end
    | _, _ => None
    end
  else None.

(** one iteration of [for row in rows] *)
Definition row_step (result : dict) (row : node) : dict :=
  match row_assignment row with
  | Some (field, value_text) => <[field := value_text]> result
  | None => result
  end.

(** lines 107-114 *)
Definition extract_report_date (soup : node) (result : dict) : dict :=
  match Bs4.find_text "label" "Report Date" soup with
  | Some (parent, _) =>
      let date_text := Bs4.get_text_strip parent in
      match Re.search_value "Report Date" date_text with
      | Some group1 => <["report_date" := Str.strip group1]> result
      | None => result
      end
  | None => result
  end.

(** lines 129-156 *)
Definition extract_table (soup : node) (result : dict) : dict :=
  match Bs4.find_class "table" "table table-striped table-condensed" soup with
  | Some table => fold_left row_step (Bs4.find_all "tr" table) result
  | None => result
  end.

(** The cross-check of the echoed registration number (lines 117-126)
    only writes a warning to the log and is left out. *)
Definition parse_vehicle_info (html_content vehicle_number now : string) : dict :=
  match BeautifulSoup html_content with
  | inr soup =>
      let result := initial_result vehicle_number now in
      let result := extract_report_date soup result in
      extract_table soup result
  | inl e =>
      failure_record vehicle_number "parse_error" ("HTML parsing failed: " +:+ e) now
  end.

End Parse.

(** ** [VehicleInfoScraper.get_vehicle_info] *)

Record VehicleInfoScraper : Type := {
  max_workers : Z;
  delay_between_requests : Q;
  fixed_nic : string;
  fixed_contact : string;
  base_url : string;
  cookies : dict
}.

(** [x or default] on an optional string *)
Definition or_default (x : option string) (default : string) : string :=
  match x with
  | Some s => if Str.nonempty s then s else default
  | None => default
  end.

(** [VehicleInfoScraper.__init__]; the fixed table of request headers plays
    no part in what follows and is not carried. *)
Definition new_scraper (max_workers : Z) (delay_between_requests : Q)
    (fixed_nic fixed_contact : string) (jsessionid : option string) : VehicleInfoScraper :=
  {| max_workers := max_workers;
     delay_between_requests := delay_between_requests;
     fixed_nic := fixed_nic;
     fixed_contact := fixed_contact;
     base_url := "https://eservices.motortraffic.gov.lk/VehicleInfo/retrieveLimitedVehicleInformation.action";
     cookies := list_to_map [("f5_cspm", "1234");
                             ("JSESSIONID", or_default jsessionid "F750F4D0BE39C97D2AB19DF9148798B8")] |}.

(** the arguments of one [requests.post] call *)
Record request : Type := {
  req_url : string;
  req_cookies : dict;
  req_data : dict;
  req_verify : bool;
  req_timeout : Z
}.

(** what [requests.post] does: it returns a response, or raises an
    exception [e] whose text [str(e)] is given. *)
Inductive http_outcome : Type :=
| Response (status_code : Z) (text : string)
| Raises (e : string).

(** the outside world as one call of [get_vehicle_info] meets it *)
Record call_env : Type := {
  requests_post : request → http_outcome;
  now_isoformat : string
}.

(** what a call does to the outside world *)
Inductive event : Type :=
| Sleep (secs : Q)
| Post (r : request).

(** [time.sleep(secs)] raises [ValueError] on a negative argument. *)
Definition time_sleep (secs : Q) : string + unit :=
  if Qle_bool 0 secs then inr tt else inl "sleep length must be non-negative".


(** the arguments of the [requests.post] call of lines 184-198 *)
Definition request_for (self : VehicleInfoScraper) (vehicle_number : string) : request :=
  {| req_url := base_url self; req_cookies := cookies self;
     req_data := list_to_map [("nicNumber", fixed_nic self);
                              ("contactNumber", fixed_contact self);
                              ("vehicleRegistrationNumber", vehicle_number)];
     req_verify := false; req_timeout := 30 |}.

(** the exception raised inside the [try] of [get_vehicle_info] before a
    response is there, if any: by [time.sleep] or by [requests.post] *)
Definition task_exception (self : VehicleInfoScraper) (w : call_env)
    (vehicle_number : string) : option string :=
  match time_sleep (delay_between_requests self) with
  | inl e => Some e
  | inr _ =>
      match requests_post w (request_for self vehicle_number) with
      | Raises e => Some e
      | Response _ _ => None
      end
  end.

Section Fetch.

Variable BeautifulSoup : string → string + node.

(** lines 179-222: the record of the key and the events of the call.  All
    of the body is inside [try ... except Exception], so the call returns a
    record whatever happens. *)
Definition get_vehicle_info (self : VehicleInfoScraper) (w : call_env)
    (vehicle_number : string) : dict * list event :=
  match time_sleep (delay_between_requests self) with
  | inr _ =>
      let r := request_for self vehicle_number in
      let events := [Sleep (delay_between_requests self); Post r] in
      match requests_post w r with
      | Response status_code text =>
          if (status_code =? 200)%Z
          then (parse_vehicle_info BeautifulSoup text vehicle_number (now_isoformat w), events)
          else (failure_record vehicle_number "failed" ("HTTP " +:+ pretty status_code)
                  (now_isoformat w), events)
      | Raises e =>
          (failure_record vehicle_number "failed" e (now_isoformat w), events)
      end
  | inl e =>
      (failure_record vehicle_number "failed" e (now_isoformat w), [])
  end.

End Fetch.

(** ** [VehicleInfoScraper.process_vehicles] *)

(** what [future.result()] does *)
Inductive future_result : Type :=
| Returned (result : dict)
| Raised (exc : string).

Section Pool.

Variable BeautifulSoup : string → string + node.

(** lines 238-241: one future per element of [vehicle_numbers], in
    submission order, each with its key; the task submitted as number [i]
    meets the world [calls i]. *)
Definition submit_all (self : VehicleInfoScraper) (calls : nat → call_env)
    (vehicle_numbers : list string) : list (string * future_result) :=
  imap (λ i vehicle_number,
          (vehicle_number,
           Returned (get_vehicle_info BeautifulSoup self (calls i) vehicle_number).1))
       vehicle_numbers.

(** the body of [for future in as_completed(...)], lines 245-257; [i] is the
    submission number of the future that completed. *)
Definition collect_step (clock : nat → string)
    (future_to_vehicle : list (string * future_result))
    (results : list dict) (i : nat) : list dict :=
  match future_to_vehicle !! i with
  | Some (vehicle_number, Returned result) =>
      if truthy result then results ++ [result] else results
  | Some (vehicle_number, Raised exc) =>
      results ++ [failure_record vehicle_number "failed" exc (clock i)]
  | None => results
  end.

(** [order] is the sequence in which [as_completed] yields the futures. *)
Definition collect (clock : nat → string)
    (future_to_vehicle : list (string * future_result)) (order : list nat) : list dict :=
  fold_left (collect_step clock future_to_vehicle) order [].

(** [ThreadPoolExecutor(max_workers=...)] raises [ValueError] unless
    [max_workers] is positive; nothing in [process_vehicles] catches it. *)
Definition process_vehicles (self : VehicleInfoScraper) (calls : nat → call_env)
    (clock : nat → string) (order : list nat) (vehicle_numbers : list string)
    : string + list dict :=
  if (0 <? max_workers self)%Z
  then inr (collect clock (submit_all self calls vehicle_numbers) order)
  else inl "max_workers must be greater than 0".

(** the records of the keys, in the order of the keys *)
Definition records_in_key_order (self : VehicleInfoScraper) (calls : nat → call_env)
    (vehicle_numbers : list string) : list dict :=
  imap (λ i vehicle_number, (get_vehicle_info BeautifulSoup self (calls i) vehicle_number).1)
       vehicle_numbers.

End Pool.

(** ** The background task of the web front end ([app.py]) *)

(** values held by the global [scraping_status] dictionary; a Python float
    is a rational here, rounding is not modelled. *)
Inductive value : Type :=
| VNone
| VBool (b : bool)
| VInt (n : Z)
| VFloat (q : Q)
| VStr (s : string)
| VList (l : list dict).

Abbreviation status_dict := (gmap string value).

(** [start_scraping], lines 155-164 *)
Definition initial_status (vehicle_numbers : list string) (session_id : string)
    (start_time : Q) : status_dict :=
  list_to_map [("is_running", VBool true); ("progress", VInt 0);
               ("total", VInt (Z.of_nat (length vehicle_numbers)));
               ("current_vehicle", VStr ""); ("results", VList []);
               ("start_time", VFloat start_time);
               ("estimated_time_remaining", VNone); ("session_id", VStr session_id)].

(** [scraping_status['is_running']]; every status the program builds holds
    the key. *)
Definition is_running (st : status_dict) : bool :=
  match st !! "is_running" with
  | Some (VBool b) => b
  | _ => false
  end.

Definition float_of (v : option value) : Q :=
  match v with
  | Some (VFloat q) => q
  | Some (VInt n) => inject_Z n
  | _ => 0%Q
  end.

(** [d.update(new)] *)
Definition update (new : list (string * value)) (st : status_dict) : status_dict :=
  list_to_map new ∪ st.

(** [cancel_scraping], lines 281-286: the new status and the message *)
Definition cancel_scraping (st : status_dict) : status_dict * string :=
  if is_running st
  then (<["is_running" := VBool false]> st, "Scraping cancelled")
  else (st, "No scraping process is running").

(** the outside world as one run of the task meets it; of the requests
    the server handles during the run, only cancel requests write to the
    status. *)
Record run_env : Type := {
  calls : nat → call_env;            (* the world of the i-th call of get_vehicle_info *)
  time_time : nat → Q;               (* time.time() in iteration i *)
  cancel_request : nat → bool;       (* a cancel request was served after the check of
                                        iteration i-1 and before the check of iteration i *)
  strftime_now : string;             (* datetime.now().strftime(...) after the loop *)
  save_results : list dict → option string  (* the text of the exception the two
                                        save_results_to_* calls raise, if any *)
}.

Section Task.

Variable BeautifulSoup : string → string + node.

(** the block under the lock at the head of an iteration, lines 205-213 *)
Definition iteration_status (env : run_env) (n i : nat) (vehicle_number : string)
    (st : status_dict) : status_dict :=
  let st := <["current_vehicle" := VStr vehicle_number]> st in
  let st := <["progress" := VInt (Z.of_nat i)]> st in
  let elapsed_time := (time_time env i - float_of (st !! "start_time"))%Q in
  if (0 <? i)%nat then
    let avg_time_per_vehicle := (elapsed_time / inject_Z (Z.of_nat i))%Q in
    let remaining_vehicles := inject_Z (Z.of_nat n - Z.of_nat i) in
    <["estimated_time_remaining" := VFloat (avg_time_per_vehicle * remaining_vehicles)%Q]> st
  else st.

(** the loop of lines 200-221, from iteration [i] on; [rest] are the keys
    not yet visited, [n] is [len(vehicle_numbers)]. *)
Fixpoint scrape_loop (scraper : VehicleInfoScraper) (env : run_env) (n i : nat)
    (rest : list string) (st : status_dict) (results : list dict) (events : list event)
    : status_dict * list dict * list event :=
  match rest with
  | [] => (st, results, events)
  | vehicle_number :: rest' =>
      let st := if cancel_request env i then (cancel_scraping st).1 else st in
      if negb (is_running st) then (st, results, events)
      else
        let st := iteration_status env n i vehicle_number st in
        let '(result, evs) := get_vehicle_info BeautifulSoup scraper (calls env i) vehicle_number in
        if truthy result then
          let results := results ++ [result] in
          let st := <["results" := VList results]> st in
          scrape_loop scraper env n (S i) rest' st results (events ++ evs)
        else
          scrape_loop scraper env n (S i) rest' st results (events ++ evs)
  end.

(** [run_scraping_task]: the final [scraping_status], the local [results]
    and the events, starting from the status [st0] that [start_scraping]
    left. *)
Definition run_scraping_task (env : run_env) (st0 : status_dict)
    (vehicle_numbers : list string) (session_id : string) (max_workers : Z)
    (delay : Q) (nic contact : string) : status_dict * list dict * list event :=
  let scraper := new_scraper max_workers delay nic contact (Some session_id) in
  let '(st, results, events) :=
    scrape_loop scraper env (length vehicle_numbers) 0 vehicle_numbers st0 [] [] in
  let timestamp := strftime_now env in
  let csv_filename := "vehicle_results_" +:+ timestamp +:+ ".csv" in
  let json_filename := "vehicle_results_" +:+ timestamp +:+ ".json" in
  match save_results env results with
  | None =>
      (update [("is_running", VBool false);
               ("progress", VInt (Z.of_nat (length vehicle_numbers)));
               ("results", VList results);
               ("csv_file", VStr csv_filename); ("json_file", VStr json_filename);
               ("completed", VBool true)] st,
       results, events)
  | Some e =>
      (update [("is_running", VBool false); ("error", VStr e);
               ("completed", VBool false)] st,
       results, events)
  end.

End Task.



(** the sequential map of a single-key operation over the keys, the
    operation being told the position of the key; [i] is the position of
    the first key of the list *)
Fixpoint sequential_map_from {A} (op : nat → string → A) (i : nat) (keys : list string)
    : list A :=
  match keys with
  | [] => []
  | key :: keys' => op i key :: sequential_map_from op (S i) keys'
  end.

Definition sequential_map {A} (op : nat → string → A) (keys : list string) : list A :=
  sequential_map_from op 0 keys.

(** the single-key operation of a run: the record of the key at position
    [i], and what obtaining it does to the outside world *)
Definition key_record (BeautifulSoup : string → string + node)
    (scraper : VehicleInfoScraper) (env : run_env) (i : nat) (key : string) : dict :=
  (get_vehicle_info BeautifulSoup scraper (calls env i) key).1.

Definition key_events (BeautifulSoup : string → string + node)
    (scraper : VehicleInfoScraper) (env : run_env) (i : nat) (key : string) : list event :=
  (get_vehicle_info BeautifulSoup scraper (calls env i) key).2.


(** the rows the table loop visits: none when the document has no table *)
Definition table_rows (soup : node) : list node :=
  match Bs4.find_class "table" "table table-striped table-condensed" soup with
  | Some table => Bs4.find_all "tr" table
  | None => []
  end.

(** ** Characters *)

(** the characters of a string *)
Abbreviation chars := String.list_ascii_of_string.

(** a list of characters that does not start with white space *)
Definition starts_clean (l : list ascii) : Prop :=
  match l with
  | [] => True
  | c :: _ => Str.isspace c = false
  end.

(** ** Vehicle numbers as the front ends read them *)

(** [list(dict.fromkeys(l))]: the keys of the dictionary in the order of
    their first insertion *)
Definition fromkeys (l : list string) : list string :=
  fold_left (λ keys k, if bool_decide (k ∈ keys) then keys else keys ++ [k]) l [].

(** [app.py], lines 119-121: the numbers typed into the form *)
Definition manual_vehicle_numbers (manual_vehicles : option string) : list string :=
  let manual_input := Str.strip (default "" manual_vehicles) in
  if Str.nonempty manual_input then
    map (λ num, Str.upper (Str.strip num))
        (List.filter (λ num, Str.nonempty (Str.strip num))
           (Str.split "010"%char (Str.replace ","%char "010"%char manual_input)))
  else [].

(** [load_vehicle_numbers_from_txt]; [lines] are the lines the file yields
    until its end or until reading raises, which ends the loop and is
    logged. *)
Definition load_vehicle_numbers_from_txt (lines : list string) : list string :=
  List.filter (λ vehicle_number, Str.nonempty vehicle_number) (map Str.strip lines).

(** ** [start_scraping] *)

(** an uploaded file, with what the file system and the loaders make of it *)
Record upload : Type := {
  upload_filename : string;            (* file.filename *)
  upload_secure_filename : string;     (* secure_filename(file.filename) *)
  upload_save_error : option string;   (* the exception file.save raises, if any *)
  upload_lines : list string;          (* the lines of the saved file *)
  upload_csv_numbers : list string;    (* load_vehicle_numbers_from_csv of the saved file *)
  upload_remove_error : option string  (* the exception os.remove raises, if any *)
}.

(** the fields of the posted form; a number field holds what [int] or
    [float] makes of the text: the number, or the text of the exception. *)
Record form : Type := {
  form_vehicle_input_method : option string;
  form_session_id : option string;
  form_max_workers : string + Z;
  form_delay : string + Q;
  form_nic : option string;
  form_contact : option string;
  form_manual_vehicles : option string;
  form_vehicle_file : option upload
}.

(** [jsonify(body), code] *)
Record response : Type := {
  code : Z;
  body : gmap string value
}.

Definition error_response (code : Z) (message : string) : response :=
  {| code := code; body := {[ "error" := VStr message ]} |}.

(** the arguments the background thread is started with *)
Record task_args : Type := {
  arg_vehicle_numbers : list string;
  arg_session_id : string;
  arg_max_workers : Z;
  arg_delay : Q;
  arg_nic : string;
  arg_contact : string
}.

(** lines 116-145: the numbers of the request, or the response that ends it *)
Definition vehicle_numbers_of_form (f : form) : response + list string :=
  let method := default "" (form_vehicle_input_method f) in
  if String.eqb method "manual" then
    inr (manual_vehicle_numbers (form_manual_vehicles f))
  else if String.eqb method "file" then
    match form_vehicle_file f with
    | None => inl (error_response 400 "No file uploaded")
    | Some file =>
        if String.eqb (upload_filename file) "" then
          inl (error_response 400 "No file selected")
        else
          let filename := upload_secure_filename file in
          match upload_save_error file with
          | Some e => inl (error_response 500 ("Failed to start scraping: " +:+ e))
          | None =>
              if Str.endswith ".csv" (Str.lower filename) then
                match upload_remove_error file with
                | Some e => inl (error_response 500 ("Failed to start scraping: " +:+ e))
                | None => inr (upload_csv_numbers file)
                end
              else if Str.endswith ".txt" (Str.lower filename) then
                match upload_remove_error file with
                | Some e => inl (error_response 500 ("Failed to start scraping: " +:+ e))
                | None => inr (load_vehicle_numbers_from_txt (upload_lines file))
                end
              else
                inl (error_response 400 "Unsupported file format. Use CSV or TXT files.")
          end
    end
  else inr [].

(** [start_scraping], lines 94-180: the response, the global status after
    the request and the thread it starts, if it starts one; [now] is
    [time.time()]. *)
Definition start_scraping (st : status_dict) (now : Q) (f : form)
    : response * status_dict * option task_args :=
  if is_running st then
    (error_response 400 "Scraping is already in progress", st, None)
  else
    let session_id := Str.strip (default "" (form_session_id f)) in
    match form_max_workers f with
    | inl e => (error_response 500 ("Failed to start scraping: " +:+ e), st, None)
    | inr max_workers =>
        match form_delay f with
        | inl e => (error_response 500 ("Failed to start scraping: " +:+ e), st, None)
        | inr delay =>
            let nic := Str.strip (default "2200000000" (form_nic f)) in
            let contact := Str.strip (default "0777777777" (form_contact f)) in
            if negb (Str.nonempty session_id) then
              (error_response 400 "Session ID is required", st, None)
            else
              match vehicle_numbers_of_form f with
              | inl r => (r, st, None)
              | inr [] => (error_response 400 "No vehicle numbers provided", st, None)
              | inr vehicle_numbers =>
                  let vehicle_numbers := fromkeys vehicle_numbers in
                  ({| code := 200;
                      body := list_to_map
                        [("message", VStr "Scraping started successfully");
                         ("total_vehicles", VInt (Z.of_nat (length vehicle_numbers)))] |},
                   initial_status vehicle_numbers session_id now,
                   Some {| arg_vehicle_numbers := vehicle_numbers;
                           arg_session_id := session_id;
                           arg_max_workers := max_workers;
                           arg_delay := delay;
                           arg_nic := nic;
                           arg_contact := contact |})
              end
        end
    end.

(** ** [get_progress] *)

(** the truth value of [status.get(key)] *)
Definition truthy_value (v : option value) : bool :=
  match v with
  | None | Some VNone => false
  | Some (VBool b) => b
  | Some (VInt n) => negb (n =? 0)%Z
  | Some (VFloat q) => negb (Qeq_bool q 0)
  | Some (VStr s) => Str.nonempty s
  | Some (VList l) => match l with [] => false | _ => true end
  end.

(** the answer of lines 264-271 *)
Definition idle_progress : status_dict :=
  list_to_map [("is_running", VBool false); ("progress", VInt 0); ("total", VInt 0);
               ("current_vehicle", VStr ""); ("results", VList []);
               ("completed", VBool false)].

(** [get_progress], lines 254-273: the dictionary sent to the client *)
Definition get_progress (st : status_dict) : status_dict :=
  if negb (truthy_value (st !! "is_running")) && negb (truthy_value (st !! "completed"))
  then idle_progress
  else st.

(** ** [validate_session] *)

Section Validate.

Variable BeautifulSoup : string → string + node.

(** lines 355-376; [session_id] is the entry of the posted JSON object, if
    it has one.  The answer is [valid] and [message]. *)
Definition validate_session (w : call_env) (session_id : option string)
    : bool * string * list event :=
  let session_id := Str.strip (default "" session_id) in
  if negb (Str.nonempty session_id) then (false, "Session ID is required", [])
  else
    let test_scraper := new_scraper 5 1 "2200000000" "0777777777" (Some session_id) in
    let '(test_result, events) := get_vehicle_info BeautifulSoup test_scraper w "TEST123" in
    if truthy test_result && negb (bool_decide (is_Some (test_result !! "error")))
    then (true, "Session ID appears valid", events)
    else (false, "Session ID may be invalid or expired", events).

End Validate.

(** ** [duration_format] *)

(** the number a value is in arithmetic, if it is one *)
Definition number_of (v : value) : option Q :=
  match v with
  | VBool b => Some (if b then 1 else 0)%Q
  | VInt n => Some (inject_Z n)
  | VFloat q => Some q
  | VNone | VStr _ | VList _ => None
  end.

(** [int(x // m)] and [x % m] on numbers, [m] a positive integer *)
Definition floordiv (x : Q) (m : Z) : Z := Qfloor (x / inject_Z m).

Definition pymod (x : Q) (m : Z) : Q := (x - inject_Z (m * floordiv x m))%Q.

(** hours, minutes and seconds of lines 46-48 *)
Definition duration_parts (seconds : Q) : Z * Z * Z :=
  (floordiv seconds 3600, floordiv (pymod seconds 3600) 60, Qfloor (pymod seconds 60)).

(** [duration_format], lines 43-57; arithmetic on anything but a number
    raises, and the [except] clause answers "Unknown". *)
Definition duration_format (seconds : value) : string :=
  match number_of seconds with
  | Some s =>
      let '(hours, minutes, seconds) := duration_parts s in
      if (0 <? hours)%Z then
        pretty hours +:+ "h " +:+ pretty minutes +:+ "m " +:+ pretty seconds +:+ "s"
      else if (0 <? minutes)%Z then
        pretty minutes +:+ "m " +:+ pretty seconds +:+ "s"
      else
        pretty seconds +:+ "s"
  | None => "Unknown"
  end.

(** ** [save_results_to_csv] *)

(** lines 271-275 *)
Definition fieldnames : list string :=
  ["vehicle_number"; "report_date"; "name_of_ownership"; "engine_number";
   "vehicle_class"; "conditions_and_notes"; "make"; "model";
   "year_of_manufacture"; "status"; "timestamp"; "error"].

(** what the call leaves in the file: nothing at all, the rows written, or
    the rows written before [DictWriter.writerow] raised [ValueError] for a
    record with keys ([wrong_fields]) that are no field names.  Rows are
    lists of cell texts, before quoting. *)
Inductive csv_outcome : Type :=
| NoFile
| Written (rows : list (list string))
| WriteRaised (rows : list (list string)) (wrong_fields : list string).

(** the cells of a record in the order of the field names, a missing one
    empty *)
Definition csv_cells (result : dict) : list string :=
  map (λ field, default "" (result !! field)) fieldnames.

(** [DictWriter.writerow(result)]: the cells, or the keys that are no field
    names (a set in Python: their order means nothing) *)
Definition csv_row (result : dict) : list string + list string :=
  match List.filter (λ k, negb (bool_decide (k ∈ fieldnames))) (map fst (map_to_list result)) with
  | [] => inr (csv_cells result)
  | wrong_fields => inl wrong_fields
  end.

Fixpoint write_rows (written : list (list string)) (results : list dict) : csv_outcome :=
  match results with
  | [] => Written written
  | result :: results' =>
      match csv_row result with
      | inr row => write_rows (written ++ [row]) results'
      | inl wrong_fields => WriteRaised written wrong_fields
      end
  end.

(** [save_results_to_csv], lines 261-282, with a file name given *)
Definition save_results_to_csv (results : list dict) : csv_outcome :=
  match results with
  | [] => NoFile
  | _ => write_rows [fieldnames] results
  end.

(** ** The command line ([main] and [get_configuration]) *)

(** lines 567-568 of [main] *)
Definition successful (results : list dict) : nat :=
  length (List.filter (λ r : dict, bool_decide (r !! "status" = Some "success")) results).

Definition failed (results : list dict) : nat := (length results - successful results)%nat.

(** the configuration [get_configuration] returns *)
Record configuration : Type := {
  config_max_workers : Z;
  config_delay : Q;
  config_nic : string;
  config_contact : string
}.

(** the float written [0.1] *)
Definition float_0_1 : Q := 3602879701896397 # 36028797018963968.

Section Configuration.

(** [int(text)] and [float(text)]: the number, or [None] for [ValueError];
    a text [float] reads as an infinity or as not-a-number is outside the
    bounds like a text it cannot read. *)
Variable py_int : string → option Z.
Variable py_float : string → option Q.

(** the loop of lines 460-469 over the lines typed; [None] when the input
    ends ([input] raises [EOFError], which nothing catches) *)
Fixpoint read_max_workers (stdin : list string) : option (Z * list string) :=
  match stdin with
  | [] => None
  | line :: stdin' =>
      let text := Str.strip line in
      match (if Str.nonempty text then py_int text else Some 3%Z) with
      | Some max_workers =>
          if (1 <=? max_workers)%Z && (max_workers <=? 10)%Z
          then Some (max_workers, stdin')
          else read_max_workers stdin'
      | None => read_max_workers stdin'
      end
  end.

(** the loop of lines 472-481 *)
Fixpoint read_delay (stdin : list string) : option (Q * list string) :=
  match stdin with
  | [] => None
  | line :: stdin' =>
      let text := Str.strip line in
      match (if Str.nonempty text then py_float text else Some 2%Q) with
      | Some delay =>
          if Qle_bool float_0_1 delay && Qle_bool delay 10
          then Some (delay, stdin')
          else read_delay stdin'
      | None => read_delay stdin'
      end
  end.

(** [get_configuration], lines 453-498 *)
Definition get_configuration (stdin : list string) : option (configuration * list string) :=
  match read_max_workers stdin with
  | None => None
  | Some (max_workers, stdin) =>
      match read_delay stdin with
      | None => None
      | Some (delay, stdin) =>
          match stdin with
          | nic :: contact :: stdin' =>
              let nic := Str.strip nic in
              let contact := Str.strip contact in
              Some ({| config_max_workers := max_workers;
                       config_delay := delay;
                       config_nic := if Str.nonempty nic then nic else "2200000000";
                       config_contact := if Str.nonempty contact then contact else "0777777777" |},
                    stdin')
          | _ => None
          end
      end
  end.

End Configuration.

(** lines 549-555 of [main]: the scraper built from the configuration and
    the session cookie typed *)
Definition main_scraper (config : configuration) (session_cookie : string)
    : VehicleInfoScraper :=
  new_scraper (config_max_workers config) (config_delay config)
    (config_nic config) (config_contact config) (Some session_cookie).

(** ** Documents and worlds used in the examples *)

Module Sample.

(** [<td>s</td>] *)
Definition cell (s : string) : node := Tag "td" [] [NavigableString s].

(** [<tr><td>label</td><td>mid</td><td>value</td></tr>] *)
Definition row3 (label mid value : string) : node :=
  Tag "tr" [] [cell label; cell mid; cell value].

(** [<table class="table table-striped table-condensed">rows</table>] *)
Definition details_table (rows : list node) : node :=
  Tag "table" ["table"; "table-striped"; "table-condensed"] rows.

(** the object [BeautifulSoup] returns *)
Definition document (contents : list node) : node := Tag "[document]" [] contents.

(** [<div><label>Report Date :</label> date </div>] *)
Definition report_date_block (date : string) : node :=
  Tag "div" [] [Tag "label" [] [NavigableString "Report Date :"]; NavigableString date].

(** a parser that answers [soup] whatever the text *)
Definition parser_of (soup : node) : string → string + node := λ _, inr soup.


(** two rows with the same label *)
Definition soup_duplicate : node :=
  document [details_table [row3 "Engine Number" "-" "A"; row3 "Engine Number" "-" "B"]].

(** a report date and no table *)
Definition soup_no_table : node :=
  document [report_date_block " 2024-01-15 "].

(** the two rows of the extractor example of the specification, and the
    make/year pair *)
Definition soup_details : node :=
  document [report_date_block "2024-01-15";
            details_table [row3 "Engine Number" "-" "ABC123";
                           row3 "Vehicle Class" "-" "Motor Car";
                           row3 "Year of Manufacture" "-" "2010";
                           row3 " MAKE " "-" "TOYOTA"]].

(** a server that answers every request with one status code and text *)
Definition answering (status_code : Z) (text now : string) : call_env :=
  {| requests_post := λ _, Response status_code text; now_isoformat := now |}.

(** a server no request reaches: [requests.post] raises *)
Definition failing (e now : string) : call_env :=
  {| requests_post := λ _, Raises e; now_isoformat := now |}.

(** three calls, the request of the second of which fails *)
Definition second_fails (i : nat) : call_env :=
  if (i =? 1)%nat then failing "Connection refused" "T" else answering 200 "<html/>" "T".

Definition scraper : VehicleInfoScraper :=
  new_scraper 2 (1 # 2) "2200000000" "0777777777" (Some "SESSION").

Definition five_keys : list string := ["K1"; "K2"; "K3"; "K4"; "K5"].

(** a run of the web task in which every request is answered with 200 and
    a cancel request is served after [k] keys, if [cancel_after] is [Some k] *)
Definition world (cancel_after : option nat) (save : option string) : run_env :=
  {| calls := λ _, answering 200 "<html/>" "2024-01-15T10:00:00";
     time_time := λ i, inject_Z (Z.of_nat i);
     cancel_request := λ i, bool_decide (cancel_after = Some i);
     strftime_now := "20240115_100000";
     save_results := λ _, save |}.

(** the web task on the five keys in that world, started by a form that
    asks for [max_workers] workers *)
Definition run (max_workers : Z) (cancel_after : option nat) (save : option string)
    : status_dict * list dict * list event :=
  run_scraping_task (parser_of soup_details) (world cancel_after save)
    (initial_status five_keys "SESSION" 0) five_keys "SESSION" max_workers (1 # 2)
    "2200000000" "0777777777".

End Sample.

(** ** Requests and inputs used in the further examples *)

Module SampleWeb.

(** the global status before any run, lines 69-77 of [app.py] *)
Definition idle_status : status_dict :=
  list_to_map [("is_running", VBool false); ("progress", VInt 0); ("total", VInt 0);
               ("current_vehicle", VStr ""); ("results", VList []);
               ("start_time", VNone); ("estimated_time_remaining", VNone)].

(** two numbers on one line, the first of them again on the next *)
Definition typed : string :=
  " ab-1234, cd 5678" +:+ String "010"%char "ab-1234 ".

(** a form with numbers typed in *)
Definition manual_form (text : string) : form :=
  {| form_vehicle_input_method := Some "manual";
     form_session_id := Some " SESSION ";
     form_max_workers := inr 3%Z;
     form_delay := inr (1 # 2);
     form_nic := None;
     form_contact := None;
     form_manual_vehicles := Some text;
     form_vehicle_file := None |}.



(** readers of numbers that know the texts used here *)
Definition int_of (s : string) : option Z :=
  if String.eqb s "4" then Some 4%Z else if String.eqb s "40" then Some 40%Z else None.

Definition float_of_text (s : string) : option Q :=
  if String.eqb s "0.5" then Some (1 # 2) else None.

(** what is typed at the prompts of [get_configuration] *)
Definition stdin : list string := ["forty"; "40"; " 4 "; "0.5"; ""; " 0771234567 "; "y"].

(** the configuration that input gives *)
Definition typed_configuration : configuration :=
  {| config_max_workers := 4; config_delay := 1 # 2;
     config_nic := "2200000000"; config_contact := "0771234567" |}.

End SampleWeb.

(** * Properties *)

(** ** The extractor *)

(** membership of a literal key in a literal list, decided by evaluation *)
Ltac decide_elem := apply (bool_decide_unpack _); vm_compute; exact I.

Section ParseFacts.

Variable BeautifulSoup : string → string + node.

Lemma report_date_not_table : "report_date" ∉ table_fields.
Proof. decide_elem. Qed.

Lemma extract_table_rows soup result :
  extract_table soup result = fold_left row_step (table_rows soup) result.
Proof. unfold extract_table, table_rows. by destruct (Bs4.find_class _ _ _). Qed.

Lemma label_field_table l f : label_field l = Some f → f ∈ table_fields.
Proof.
  unfold label_field.
  repeat (case_match; [intros [= <-]; decide_elem |]). done.
Qed.

Lemma row_assignment_table row f v : row_assignment row = Some (f, v) → f ∈ table_fields.
Proof.
  unfold row_assignment. repeat case_match; try done.
  intros [= <- _]. by eapply label_field_table.
Qed.

Lemma row_step_other result row k :
  (∀ v, row_assignment row ≠ Some (k, v)) → row_step result row !! k = result !! k.
Proof.
  intros Hk. unfold row_step. destruct (row_assignment row) as [[f v]|] eqn:E; [|done].
  rewrite lookup_insert_ne; [done|]. intros ->. by eapply Hk.
Qed.

Lemma row_step_same result row k v :
  row_assignment row = Some (k, v) → row_step result row !! k = Some v.
Proof. intros E. unfold row_step. rewrite E. by rewrite lookup_insert_eq. Qed.

(** a key no row assigns keeps its value through the loop *)
Lemma rows_untouched rows result k :
  (∀ row, row ∈ rows → ∀ v, row_assignment row ≠ Some (k, v)) →
  fold_left row_step rows result !! k = result !! k.
Proof.
  revert result. induction rows as [|row rows IH]; intros result Hk; [done|].
  cbn [fold_left]. rewrite IH.
  - apply row_step_other. intros v. apply Hk. left.
  - intros r Hr. apply Hk. by right.
Qed.

(** the last row that assigns a key decides its value *)
Lemma rows_last_assignment rows1 row rows2 result k v :
  row_assignment row = Some (k, v) →
  (∀ r, r ∈ rows2 → ∀ v', row_assignment r ≠ Some (k, v')) →
  fold_left row_step (rows1 ++ row :: rows2) result !! k = Some v.
Proof.
  intros E Hlater. rewrite fold_left_app. cbn [fold_left].
  rewrite rows_untouched; [|done]. by apply row_step_same.
Qed.

Lemma rows_non_table rows result k :
  k ∉ table_fields → fold_left row_step rows result !! k = result !! k.
Proof.
  intros Hk. apply rows_untouched. intros row _ v E.
  apply Hk. by eapply row_assignment_table.
Qed.

Lemma extract_report_date_other soup result k :
  k ≠ "report_date" → extract_report_date soup result !! k = result !! k.
Proof.
  intros Hk. unfold extract_report_date.
  repeat case_match; try done. by rewrite lookup_insert_ne.
Qed.


Lemma parse_ok html soup vehicle_number now :
  BeautifulSoup html = inr soup →
  parse_vehicle_info BeautifulSoup html vehicle_number now =
  fold_left row_step (table_rows soup)
    (extract_report_date soup (initial_result vehicle_number now)).
Proof.
  intros E. unfold parse_vehicle_info. rewrite E. apply extract_table_rows.
Qed.

Lemma parse_raises html e vehicle_number now :
  BeautifulSoup html = inl e →
  parse_vehicle_info BeautifulSoup html vehicle_number now =
  failure_record vehicle_number "parse_error" ("HTML parsing failed: " +:+ e) now.
Proof. intros E. unfold parse_vehicle_info. by rewrite E. Qed.

(** a key outside the eight extracted attributes is as the initial
    dictionary has it *)
Lemma parse_ok_fixed html soup vehicle_number now k :
  BeautifulSoup html = inr soup →
  k ∉ extracted_fields →
  parse_vehicle_info BeautifulSoup html vehicle_number now !! k =
  initial_result vehicle_number now !! k.
Proof.
  intros E Hk. rewrite (parse_ok _ soup) by done.
  rewrite rows_non_table, extract_report_date_other; [done| |].
  - intros ->. apply Hk. left.
  - intros Hin. apply Hk. by right.
Qed.

Lemma initial_result_extracted vehicle_number now k :
  k ∈ extracted_fields → initial_result vehicle_number now !! k = Some "".
Proof.
  unfold extracted_fields, table_fields. rewrite !elem_of_cons, elem_of_nil.
  intros H. repeat (destruct H as [->|H]; [by vm_compute|]). done.
Qed.

(** every extracted attribute is present after a parse that did not raise *)
Lemma parse_ok_present html soup vehicle_number now k :
  BeautifulSoup html = inr soup →
  k ∈ extracted_fields →
  is_Some (parse_vehicle_info BeautifulSoup html vehicle_number now !! k).
Proof.
  intros E Hk. rewrite (parse_ok _ soup) by done.
  assert (Hpres : ∀ rows result, is_Some (result !! k) →
                  is_Some (fold_left row_step rows result !! k)).
  { induction rows as [|row rows IH]; intros result Hr; [done|].
    cbn [fold_left]. apply IH. unfold row_step.
    destruct (row_assignment row) as [[f v]|]; [|done].
    rewrite lookup_insert. case_decide; [done|]. done. }
  apply Hpres. unfold extract_report_date. repeat case_match;
    try (rewrite lookup_insert; case_decide; [done|]);
    rewrite initial_result_extracted; done.
Qed.

End ParseFacts.

Section ExtractorClaims.

Variable BeautifulSoup : string → string + node.









(** what a row that assigns a field looks like *)
Lemma row_assignment_inv row field v :
  row_assignment row = Some (field, v) →
  ∃ label_cell value_cell,
    Bs4.find_all "td" row !! 0%nat = Some label_cell ∧
    Bs4.find_all "td" row !! 2%nat = Some value_cell ∧
    label_field (Str.lower (Bs4.get_text_strip label_cell)) = Some field ∧
    v = Bs4.get_text_strip value_cell.
Proof.
  unfold row_assignment. destruct (3 <=? _); [|done].
  destruct (_ !! 0%nat) as [label_cell|]; [|done].
  destruct (_ !! 2%nat) as [value_cell|]; [|done].
  destruct (label_field _) as [f|] eqn:E; [|done].
  intros [= <- <-]. by exists label_cell, value_cell.
Qed.

(** a value found after the loop was there before or was put by a row *)
Lemma rows_assigned_by rows result k v :
  fold_left row_step rows result !! k = Some v →
  result !! k = Some v ∨ ∃ row, row ∈ rows ∧ row_assignment row = Some (k, v).
Proof.
  revert result. induction rows as [|row rows IH]; intros result H; [by left|].
  cbn [fold_left] in H. apply IH in H as [H|(r & Hr & E)].
  - unfold row_step in H. destruct (row_assignment row) as [[f w]|] eqn:E; [|by left].
    rewrite lookup_insert in H. case_decide as Hf; [|by left].
    subst f. injection H as ->. right. exists row. split; [left|done].
  - right. exists r. split; [by right|done].
Qed.


(** C4 (as amended): when several rows of the results table match the same
    field, the field holds the value of the last of them; every earlier
    matching row is overwritten. *)
Theorem last_match_wins html vehicle_number now soup rows1 row rows2 field v :
  BeautifulSoup html = inr soup →
  table_rows soup = rows1 ++ row :: rows2 →
  row_assignment row = Some (field, v) →
  (∀ r, r ∈ rows2 → ∀ v', row_assignment r ≠ Some (field, v')) →
  parse_vehicle_info BeautifulSoup html vehicle_number now !! field = Some v.
Proof.
  intros E Hrows Hrow Hlater. rewrite (parse_ok _ _ soup) by done.
  rewrite Hrows. by apply rows_last_assignment.
Qed.



End ExtractorClaims.

(** C4, at two rows labelled alike: the field holds the value of the last. *)
Lemma last_match_wins_witness :
  table_rows Sample.soup_duplicate =
    [Sample.row3 "Engine Number" "-" "A"] ++ Sample.row3 "Engine Number" "-" "B" :: [] ∧
  row_assignment (Sample.row3 "Engine Number" "-" "B") = Some ("engine_number", "B") ∧
  parse_vehicle_info (Sample.parser_of Sample.soup_duplicate) "" "K1" "T" !! "engine_number"
    = Some "B".
Proof.
  split; [by vm_compute|]. split; [by vm_compute|].
  apply (last_match_wins (Sample.parser_of Sample.soup_duplicate) "" "K1" "T"
           Sample.soup_duplicate [Sample.row3 "Engine Number" "-" "A"]
           (Sample.row3 "Engine Number" "-" "B") [] "engine_number" "B").
  - reflexivity.
  - by vm_compute.
  - by vm_compute.
  - intros r Hr. by apply elem_of_nil in Hr.
Defined.

(** C4 as the specification words it fails: of two rows labelled "Engine
    Number", the first with value "A" and the second with value "B", the
    record holds "B", not the value of the first matching row. *)
Lemma first_match_loses :
  table_rows Sample.soup_duplicate =
    [Sample.row3 "Engine Number" "-" "A"; Sample.row3 "Engine Number" "-" "B"] ∧
  row_assignment (Sample.row3 "Engine Number" "-" "A") = Some ("engine_number", "A") ∧
  row_assignment (Sample.row3 "Engine Number" "-" "B") = Some ("engine_number", "B") ∧
  parse_vehicle_info (Sample.parser_of Sample.soup_duplicate) "" "K1" "T" !! "engine_number"
    ≠ Some "A".
Proof. split_and!; by vm_compute. Qed.




(** ** The fetcher *)

Section FetchFacts.

Variable BeautifulSoup : string → string + node.

Lemma failure_record_lookups vehicle_number status error now :
  failure_record vehicle_number status error now !! "vehicle_number" = Some vehicle_number ∧
  failure_record vehicle_number status error now !! "status" = Some status ∧
  failure_record vehicle_number status error now !! "error" = Some error ∧
  failure_record vehicle_number status error now !! "timestamp" = Some now.
Proof. split_and!; by vm_compute. Qed.

(** the three shapes of the record of a key *)
Lemma get_vehicle_info_cases self w vehicle_number :
  let r := (get_vehicle_info BeautifulSoup self w vehicle_number).1 in
  (∃ e, r = failure_record vehicle_number "failed" e (now_isoformat w)) ∨
  (∃ e, r = failure_record vehicle_number "parse_error" e (now_isoformat w)) ∨
  (∃ text soup, BeautifulSoup text = inr soup ∧
                r = parse_vehicle_info BeautifulSoup text vehicle_number (now_isoformat w)).
Proof.
  unfold get_vehicle_info. destruct (time_sleep _); [by left; eauto|].
  destruct (requests_post w _) as [code text|e]; [|by left; eauto].
  destruct (code =? 200)%Z; [|by left; eauto].
  cbn [fst]. destruct (BeautifulSoup text) as [e|soup] eqn:E.
  - right; left. exists ("HTML parsing failed: " +:+ e). by apply parse_raises.
  - right; right. by exists text, soup.
Qed.

Lemma get_vehicle_info_key self w vehicle_number :
  (get_vehicle_info BeautifulSoup self w vehicle_number).1 !! "vehicle_number"
  = Some vehicle_number.
Proof.
  destruct (get_vehicle_info_cases self w vehicle_number)
    as [[e ->]|[[e ->]|(text & soup & E & ->)]]; [by vm_compute..|].
  rewrite (parse_ok_fixed _ _ soup) by (done || decide_elem). by vm_compute.
Qed.

(** [if result:] never drops the record of a key *)
Lemma get_vehicle_info_truthy self w vehicle_number :
  truthy (get_vehicle_info BeautifulSoup self w vehicle_number).1 = true.
Proof.
  unfold truthy. apply bool_decide_eq_true. intros Hempty.
  pose proof (get_vehicle_info_key self w vehicle_number) as Hk.
  rewrite Hempty in Hk. by rewrite lookup_empty in Hk.
Qed.

Lemma get_vehicle_info_events self w vehicle_number :
  (0 <= delay_between_requests self)%Q →
  (get_vehicle_info BeautifulSoup self w vehicle_number).2
  = [Sleep (delay_between_requests self); Post (request_for self vehicle_number)].
Proof.
  intros Hd. unfold get_vehicle_info, time_sleep.
  apply Qle_bool_iff in Hd. rewrite Hd. fold (request_for self vehicle_number).
  destruct (requests_post w _) as [code text|e]; [|done].
  by destruct (code =? 200)%Z.
Qed.

Lemma get_vehicle_info_result self w vehicle_number :
  (0 <= delay_between_requests self)%Q →
  (get_vehicle_info BeautifulSoup self w vehicle_number).1 =
  match requests_post w (request_for self vehicle_number) with
  | Response status_code text =>
      if (status_code =? 200)%Z
      then parse_vehicle_info BeautifulSoup text vehicle_number (now_isoformat w)
      else failure_record vehicle_number "failed" ("HTTP " +:+ pretty status_code)
             (now_isoformat w)
  | Raises e => failure_record vehicle_number "failed" e (now_isoformat w)
  end.
Proof.
  intros Hd. unfold get_vehicle_info, time_sleep.
  apply Qle_bool_iff in Hd. rewrite Hd. fold (request_for self vehicle_number).
  destruct (requests_post w _) as [code text|e]; [|done].
  by destruct (code =? 200)%Z.
Qed.


(** C9: the record of a key holds the key, a creation timestamp and one
    of the three statuses (written "success", "failed", "parse_error");
    with a failure status it holds an error message; with status "success"
    it holds each of the eight extracted attributes, as a string. *)
Theorem record_invariant self w vehicle_number :
  (get_vehicle_info BeautifulSoup self w vehicle_number).1 !! "vehicle_number"
    = Some vehicle_number ∧
  (get_vehicle_info BeautifulSoup self w vehicle_number).1 !! "timestamp"
    = Some (now_isoformat w) ∧
  ∃ s : status,
    (get_vehicle_info BeautifulSoup self w vehicle_number).1 !! "status"
      = Some (status_string s) ∧
    match s with
    | success =>
        ∀ field, field ∈ extracted_fields →
          is_Some ((get_vehicle_info BeautifulSoup self w vehicle_number).1 !! field)
    | fetch_failed | parse_failed =>
        is_Some ((get_vehicle_info BeautifulSoup self w vehicle_number).1 !! "error")
    end.
Proof.
  destruct (get_vehicle_info_cases self w vehicle_number)
    as [[e ->]|[[e ->]|(text & soup & E & ->)]].
  - split_and!; [by vm_compute..|]. exists fetch_failed. split; [by vm_compute|by eexists].
  - split_and!; [by vm_compute..|]. exists parse_failed. split; [by vm_compute|by eexists].
  - split_and!.
    + rewrite (parse_ok_fixed _ _ soup) by (done || decide_elem). by vm_compute.
    + rewrite (parse_ok_fixed _ _ soup) by (done || decide_elem). by vm_compute.
    + exists success. split.
      * rewrite (parse_ok_fixed _ _ soup) by (done || decide_elem). by vm_compute.
      * intros field Hf. by eapply parse_ok_present.
Qed.

End FetchFacts.


(** C9 on a request answered with 404: a failure status and its message. *)
Lemma record_invariant_witness :
  (get_vehicle_info (Sample.parser_of Sample.soup_details) Sample.scraper
     (Sample.answering 404 "" "T") "K1").1 !! "vehicle_number" = Some "K1" ∧
  (get_vehicle_info (Sample.parser_of Sample.soup_details) Sample.scraper
     (Sample.answering 404 "" "T") "K1").1 !! "timestamp" = Some "T".
Proof.
  destruct (record_invariant (Sample.parser_of Sample.soup_details) Sample.scraper
              (Sample.answering 404 "" "T") "K1") as (Hk & Ht & _).
  by split.
Defined.

(** ** The thread-pool coordinator *)

Section PoolFacts.

Variable BeautifulSoup : string → string + node.

Lemma omap_lookup_seq {A} (l1 l2 : list A) :
  omap (λ i, (l1 ++ l2) !! i) (seq (length l1) (length l2)) = l2.
Proof.
  revert l1. induction l2 as [|x l2 IH]; intros l1; [done|].
  cbn. rewrite list_lookup_middle by done. f_equal.
  specialize (IH (l1 ++ [x])). rewrite <- app_assoc, length_app in IH.
  cbn in IH. by rewrite Nat.add_1_r in IH.
Qed.

Lemma omap_lookup_all {A} (l : list A) : omap (λ i, l !! i) (seq 0 (length l)) = l.
Proof. apply (omap_lookup_seq [] l). Qed.


(** what the loop appends for the future submitted as number [i] *)
Lemma collect_step_submitted self calls clock vehicle_numbers results i :
  collect_step clock (submit_all BeautifulSoup self calls vehicle_numbers) results i
  = results ++ option_list (records_in_key_order BeautifulSoup self calls vehicle_numbers !! i).
Proof.
  unfold collect_step, submit_all, records_in_key_order. rewrite !list_lookup_imap.
  destruct (vehicle_numbers !! i) as [k|]; cbn; [|by rewrite app_nil_r].
  by rewrite get_vehicle_info_truthy.
Qed.

Lemma collect_submitted self calls clock vehicle_numbers order :
  collect clock (submit_all BeautifulSoup self calls vehicle_numbers) order
  = omap (λ i, records_in_key_order BeautifulSoup self calls vehicle_numbers !! i) order.
Proof.
  unfold collect.
  assert (H : ∀ acc,
    fold_left (collect_step clock (submit_all BeautifulSoup self calls vehicle_numbers)) order acc
    = acc ++ omap (λ i, records_in_key_order BeautifulSoup self calls vehicle_numbers !! i) order).
  { induction order as [|i order IH]; intros acc; [by rewrite app_nil_r|].
    cbn. rewrite IH, collect_step_submitted.
    destruct (_ !! i); cbn; [by rewrite <- app_assoc|by rewrite app_nil_r]. }
  apply (H []).
Qed.

Lemma length_records self calls vehicle_numbers :
  length (records_in_key_order BeautifulSoup self calls vehicle_numbers)
  = length vehicle_numbers.
Proof. apply length_imap. Qed.

Lemma process_vehicles_ok self calls clock order vehicle_numbers :
  (0 < max_workers self)%Z →
  process_vehicles BeautifulSoup self calls clock order vehicle_numbers
  = inr (omap (λ i, records_in_key_order BeautifulSoup self calls vehicle_numbers !! i) order).
Proof.
  intros Hw. unfold process_vehicles. apply Z.ltb_lt in Hw. rewrite Hw.
  by rewrite collect_submitted.
Qed.

Lemma completed_permutation self calls order vehicle_numbers :
  order ≡ₚ seq 0 (length vehicle_numbers) →
  omap (λ i, records_in_key_order BeautifulSoup self calls vehicle_numbers !! i) order
  ≡ₚ records_in_key_order BeautifulSoup self calls vehicle_numbers.
Proof.
  intros Hperm. rewrite Hperm, <- (length_records self calls).
  by rewrite omap_lookup_all.
Qed.

(** an exception inside the task of a key becomes its "failed" record *)
Lemma task_exception_record self w vehicle_number e :
  task_exception self w vehicle_number = Some e →
  (get_vehicle_info BeautifulSoup self w vehicle_number).1
  = failure_record vehicle_number "failed" e (now_isoformat w).
Proof.
  unfold task_exception, get_vehicle_info.
  destruct (time_sleep _); [by intros [= ->]|].
  destruct (requests_post w _); [done|by intros [= ->]].
Qed.

(** C1: with a positive [max_workers], and the futures completing in any
    order, [process_vehicles] returns and its list holds exactly one record
    per input key, that of the key; an exception raised while a key is
    processed, by the pause or by the request, is caught in the task of the
    key and becomes a "failed" record with the text of the exception, which
    is in the list like every other record; an exception that
    [future.result()] raises becomes such a record as well. *)
Theorem one_record_per_key self calls clock order vehicle_numbers :
  (0 < max_workers self)%Z →
  order ≡ₚ seq 0 (length vehicle_numbers) →
  ∃ results,
    process_vehicles BeautifulSoup self calls clock order vehicle_numbers = inr results ∧
    length results = length vehicle_numbers ∧
    results ≡ₚ records_in_key_order BeautifulSoup self calls vehicle_numbers ∧
    (∀ i key, vehicle_numbers !! i = Some key →
       (get_vehicle_info BeautifulSoup self (calls i) key).1 ∈ results ∧
       (get_vehicle_info BeautifulSoup self (calls i) key).1 !! "vehicle_number" = Some key) ∧
    (∀ i key e, vehicle_numbers !! i = Some key →
       task_exception self (calls i) key = Some e →
       failure_record key "failed" e (now_isoformat (calls i)) ∈ results) ∧
    (∀ futures i key exc results0,
       futures !! i = Some (key, Raised exc) →
       collect_step clock futures results0 i
       = results0 ++ [failure_record key "failed" exc (clock i)]).
Proof.
  intros Hw Hperm. eexists. split; [by apply process_vehicles_ok|].
  pose proof (completed_permutation self calls order vehicle_numbers Hperm) as Hp.
  assert (Hin : ∀ i key, vehicle_numbers !! i = Some key →
            (get_vehicle_info BeautifulSoup self (calls i) key).1
            ∈ omap (λ i, records_in_key_order BeautifulSoup self calls vehicle_numbers !! i)
                order).
  { intros i key Hi. rewrite Hp. apply list_elem_of_lookup. exists i.
    unfold records_in_key_order. rewrite list_lookup_imap, Hi. done. }
  split_and!.
  - by rewrite Hp, length_records.
  - done.
  - intros i key Hi. split; [by apply Hin|apply get_vehicle_info_key].
  - intros i key e Hi He. rewrite <- (task_exception_record _ _ _ _ He). by apply Hin.
  - intros futures i key exc results0 Hf. unfold collect_step. by rewrite Hf.
Qed.


End PoolFacts.

(** C1 on three keys completing out of order, the request of the second
    failing. *)
Lemma one_record_per_key_witness :
  (0 < max_workers Sample.scraper)%Z ∧
  [1; 0; 2]%nat ≡ₚ seq 0 (length ["K1"; "K2"; "K3"]) ∧
  ∃ results,
    process_vehicles (Sample.parser_of Sample.soup_details) Sample.scraper
      Sample.second_fails (λ _, "T") [1; 0; 2]%nat ["K1"; "K2"; "K3"] = inr results ∧
    length results = 3%nat ∧
    failure_record "K2" "failed" "Connection refused" "T" ∈ results.
Proof.
  assert (Hw : (0 < max_workers Sample.scraper)%Z) by done.
  assert (Hp : [1; 0; 2]%nat ≡ₚ seq 0 (length ["K1"; "K2"; "K3"])) by apply perm_swap.
  split; [done|]. split; [done|].
  destruct (one_record_per_key (Sample.parser_of Sample.soup_details) Sample.scraper
              Sample.second_fails (λ _, "T") [1; 0; 2]%nat ["K1"; "K2"; "K3"] Hw Hp)
    as (results & Hr & Hlen & _ & _ & Hexc & _).
  exists results. split_and!; [done..|].
  by apply (Hexc 1%nat "K2" "Connection refused").
Defined.



(** ** The background task of the web front end *)

Section TaskFacts.

Variable BeautifulSoup : string → string + node.

Lemma iteration_status_other env n i vehicle_number st key :
  key ≠ "current_vehicle" → key ≠ "progress" → key ≠ "estimated_time_remaining" →
  iteration_status env n i vehicle_number st !! key = st !! key.
Proof.
  intros H1 H2 H3. unfold iteration_status.
  destruct (0 <? i)%nat; by rewrite !lookup_insert_ne.
Qed.

Lemma iteration_status_running env n i vehicle_number st :
  is_running (iteration_status env n i vehicle_number st) = is_running st.
Proof. unfold is_running. by rewrite iteration_status_other. Qed.

Lemma cancel_scraping_stops st : is_running (cancel_scraping st).1 = false.
Proof.
  unfold cancel_scraping. destruct (is_running st) eqn:E; [|done].
  cbn [fst]. unfold is_running. by rewrite lookup_insert_eq.
Qed.

Lemma cancel_scraping_other st key :
  key ≠ "is_running" → (cancel_scraping st).1 !! key = st !! key.
Proof.
  intros Hk. unfold cancel_scraping. destruct (is_running st); [|done].
  cbn. by rewrite lookup_insert_ne.
Qed.

(** an iteration whose check finds the run alive *)
Lemma scrape_loop_step scraper env n i vehicle_number rest st results events :
  cancel_request env i = false →
  is_running st = true →
  scrape_loop BeautifulSoup scraper env n i (vehicle_number :: rest) st results events =
  scrape_loop BeautifulSoup scraper env n (S i) rest
    (<["results" :=
         VList (results ++
                [(get_vehicle_info BeautifulSoup scraper (calls env i) vehicle_number).1])]>
       (iteration_status env n i vehicle_number st))
    (results ++ [(get_vehicle_info BeautifulSoup scraper (calls env i) vehicle_number).1])
    (events ++ (get_vehicle_info BeautifulSoup scraper (calls env i) vehicle_number).2).
Proof.
  intros Hc Hr. cbn [scrape_loop]. rewrite Hc, Hr. cbn [negb].
  pose proof (get_vehicle_info_truthy BeautifulSoup scraper (calls env i) vehicle_number) as Ht.
  destruct (get_vehicle_info _ _ _ _) as [result evs]. cbn [fst snd] in *. by rewrite Ht.
Qed.

(** an iteration whose check finds a cancel request served *)
Lemma scrape_loop_cancelled scraper env n i vehicle_number rest st results events :
  cancel_request env i = true →
  scrape_loop BeautifulSoup scraper env n i (vehicle_number :: rest) st results events =
  ((cancel_scraping st).1, results, events).
Proof. intros Hc. cbn [scrape_loop]. by rewrite Hc, cancel_scraping_stops. Qed.

Lemma sequential_map_from_length {A} (op : nat → string → A) i keys :
  length (sequential_map_from op i keys) = length keys.
Proof. revert i. induction keys as [|k keys IH]; intros i; cbn; [done|]. by rewrite IH. Qed.

(** the iterations over [rest1] when no cancel request is served meanwhile *)
Lemma scrape_loop_app scraper env n rest1 :
  ∀ i rest2 st results events,
    is_running st = true →
    st !! "results" = Some (VList results) →
    (∀ j, (i ≤ j < i + length rest1)%nat → cancel_request env j = false) →
    ∃ st',
      scrape_loop BeautifulSoup scraper env n i (rest1 ++ rest2) st results events =
      scrape_loop BeautifulSoup scraper env n (i + length rest1) rest2 st'
        (results ++ sequential_map_from
           (λ j key, (get_vehicle_info BeautifulSoup scraper (calls env j) key).1) i rest1)
        (events ++ concat (sequential_map_from
           (λ j key, (get_vehicle_info BeautifulSoup scraper (calls env j) key).2) i rest1)) ∧
      is_running st' = true ∧
      st' !! "results" = Some (VList (results ++ sequential_map_from
           (λ j key, (get_vehicle_info BeautifulSoup scraper (calls env j) key).1) i rest1)) ∧
      (∀ key, key ≠ "current_vehicle" → key ≠ "progress" →
              key ≠ "estimated_time_remaining" → key ≠ "results" →
              st' !! key = st !! key).
Proof.
  induction rest1 as [|k rest1 IH]; intros i rest2 st results events Hrun Hres Hc.
  - exists st. cbn. by rewrite Nat.add_0_r, !app_nil_r.
  - cbn [app]. rewrite scrape_loop_step by (done || (apply Hc; cbn; lia)).
    set (r := (get_vehicle_info BeautifulSoup scraper (calls env i) k).1).
    set (evs := (get_vehicle_info BeautifulSoup scraper (calls env i) k).2).
    destruct (IH (S i) rest2
                (<["results" := VList (results ++ [r])]> (iteration_status env n i k st))
                (results ++ [r]) (events ++ evs))
      as (st' & Heq & Hrun' & Hres' & Hother).
    + unfold is_running. rewrite lookup_insert_ne by done.
      fold (is_running (iteration_status env n i k st)).
      by rewrite iteration_status_running.
    + by rewrite lookup_insert_eq.
    + intros j Hj. apply Hc. cbn. lia.
    + exists st'. cbn [sequential_map_from concat length].
      rewrite Heq. replace (i + S (length rest1))%nat with (S i + length rest1)%nat by lia.
      rewrite <- !app_assoc in *. cbn [app] in *. split_and!; [done..|].
      intros key H1 H2 H3 H4. rewrite Hother by done.
      rewrite lookup_insert_ne by done. by apply iteration_status_other.
Qed.

Lemma get_vehicle_info_workers max_workers max_workers' delay nic contact session w key :
  get_vehicle_info BeautifulSoup (new_scraper max_workers delay nic contact session) w key =
  get_vehicle_info BeautifulSoup (new_scraper max_workers' delay nic contact session) w key.
Proof. reflexivity. Qed.

Lemma scrape_loop_workers max_workers max_workers' delay nic contact session env n rest :
  ∀ i st results events,
    scrape_loop BeautifulSoup (new_scraper max_workers delay nic contact session)
      env n i rest st results events =
    scrape_loop BeautifulSoup (new_scraper max_workers' delay nic contact session)
      env n i rest st results events.
Proof.
  induction rest as [|k rest IH]; intros i st results events; [done|].
  cbn [scrape_loop].
  rewrite (get_vehicle_info_workers max_workers max_workers').
  destruct (negb _); [done|]. destruct (get_vehicle_info _ _ _ _) as [result evs].
  destruct (truthy result); apply IH.
Qed.

Lemma initial_status_lookups vehicle_numbers session_id start_time :
  is_running (initial_status vehicle_numbers session_id start_time) = true ∧
  initial_status vehicle_numbers session_id start_time !! "results" = Some (VList []) ∧
  initial_status vehicle_numbers session_id start_time !! "cancelled" = None ∧
  initial_status vehicle_numbers session_id start_time !! "completed" = None ∧
  initial_status vehicle_numbers session_id start_time !! "error" = None.
Proof. split_and!; by vm_compute. Qed.

(** the status after the final [update] when the results were saved *)
Lemma update_saved st n results csv json :
  let st' := update [("is_running", VBool false); ("progress", VInt n);
                     ("results", VList results); ("csv_file", VStr csv);
                     ("json_file", VStr json); ("completed", VBool true)] st in
  is_running st' = false ∧
  st' !! "results" = Some (VList results) ∧
  st' !! "completed" = Some (VBool true) ∧
  st' !! "cancelled" = st !! "cancelled" ∧
  st' !! "error" = st !! "error".
Proof.
  unfold update, is_running. split_and!;
    first [ rewrite lookup_union_r by (by vm_compute); done
          | rewrite lookup_union_l' by (vm_compute; by eexists); by vm_compute ].
Qed.

(** the status after the [update] of the [except] branch *)
Lemma update_aborted st e :
  let st' := update [("is_running", VBool false); ("error", VStr e);
                     ("completed", VBool false)] st in
  is_running st' = false ∧
  st' !! "results" = st !! "results" ∧
  st' !! "completed" = Some (VBool false) ∧
  st' !! "cancelled" = st !! "cancelled" ∧
  st' !! "error" = Some (VStr e).
Proof.
  unfold update, is_running. split_and!;
    first [ rewrite lookup_union_r by (by vm_compute); done
          | rewrite lookup_union_l' by (vm_compute; by eexists); by vm_compute ].
Qed.

End TaskFacts.

Section TaskClaims.

Variable BeautifulSoup : string → string + node.



(** C10: a run of the web task that no cancel request reaches visits the
    keys one at a time in input order: its events are those of the first
    key, then those of the second, and so on, and its record list is the
    sequential map of the single-key operation over the keys.  The value of
    [max_workers] plays no part: the run with [max_workers] is described by
    the single-key operation of any other [max_workers'], and the task is the
    same function for both. *)
Theorem web_run_is_sequential env vehicle_numbers session_id start_time max_workers
    max_workers' delay nic contact :
  (∀ i, (i < length vehicle_numbers)%nat → cancel_request env i = false) →
  ∃ st,
    run_scraping_task BeautifulSoup env
      (initial_status vehicle_numbers session_id start_time)
      vehicle_numbers session_id max_workers delay nic contact
    = (st,
       sequential_map
         (key_record BeautifulSoup
            (new_scraper max_workers' delay nic contact (Some session_id)) env)
         vehicle_numbers,
       concat (sequential_map
                 (key_events BeautifulSoup
                    (new_scraper max_workers' delay nic contact (Some session_id)) env)
                 vehicle_numbers)) ∧
    st !! "results"
      = Some (VList (sequential_map
                       (key_record BeautifulSoup
                          (new_scraper max_workers' delay nic contact (Some session_id)) env)
                       vehicle_numbers)) ∧
    run_scraping_task BeautifulSoup env
      (initial_status vehicle_numbers session_id start_time)
      vehicle_numbers session_id max_workers' delay nic contact
    = run_scraping_task BeautifulSoup env
        (initial_status vehicle_numbers session_id start_time)
        vehicle_numbers session_id max_workers delay nic contact.
Proof.
  intros Hc.
  pose proof (initial_status_lookups vehicle_numbers session_id start_time)
    as (Hrun & Hres & _).
  assert (Hsame : ∀ st0,
    run_scraping_task BeautifulSoup env st0 vehicle_numbers session_id max_workers'
      delay nic contact
    = run_scraping_task BeautifulSoup env st0 vehicle_numbers session_id max_workers
        delay nic contact).
  { intros st0. unfold run_scraping_task.
    by rewrite (scrape_loop_workers BeautifulSoup max_workers' max_workers). }
  rewrite <- (Hsame (initial_status _ _ _)).
  set (st0 := initial_status vehicle_numbers session_id start_time) in *.
  unfold run_scraping_task.
  destruct (scrape_loop_app BeautifulSoup
              (new_scraper max_workers' delay nic contact (Some session_id))
              env (length vehicle_numbers) vehicle_numbers 0 [] st0 [] [] Hrun Hres)
    as (st' & Heq & Hrun' & Hres' & Hother).
  { intros j Hj. apply Hc. lia. }
  rewrite app_nil_r in Heq. rewrite Heq. cbn [scrape_loop app] in *.
  destruct (save_results env _) as [e|].
  - pose proof (update_aborted st' e) as (H1 & H2 & H3 & H4 & H5).
    eexists. split; [done|]. split; [|done]. by rewrite H2.
  - eexists. split; [done|]. split; [|done]. by eapply update_saved.
Qed.

End TaskClaims.



(** C10 on five keys and a form that asks for no worker at all: the web
    task returns the five records in key order, where the thread-pool
    coordinator cannot even start. *)
Lemma web_run_is_sequential_witness :
  process_vehicles (Sample.parser_of Sample.soup_details)
    (new_scraper 0 (1 # 2) "2200000000" "0777777777" (Some "SESSION"))
    (calls (Sample.world None None)) (λ _, "T") (seq 0 5) Sample.five_keys
  = inl "max_workers must be greater than 0" ∧
  ∃ st,
    Sample.run 0 None None
    = (st,
       sequential_map
         (key_record (Sample.parser_of Sample.soup_details)
            (new_scraper 2 (1 # 2) "2200000000" "0777777777" (Some "SESSION"))
            (Sample.world None None))
         Sample.five_keys,
       concat (sequential_map
                 (key_events (Sample.parser_of Sample.soup_details)
                    (new_scraper 2 (1 # 2) "2200000000" "0777777777" (Some "SESSION"))
                    (Sample.world None None))
                 Sample.five_keys)).
Proof.
  split; [reflexivity|].
  destruct (web_run_is_sequential (Sample.parser_of Sample.soup_details)
              (Sample.world None None) Sample.five_keys "SESSION" 0 0 2 (1 # 2)
              "2200000000" "0777777777")
    as (st & Hrun & _).
  { intros i _. reflexivity. }
  exists st. exact Hrun.
Defined.

(** * Further properties of the code *)

(** ** Strings *)

Lemma chars_inj s1 s2 : chars s1 = chars s2 → s1 = s2.
Proof.
  intros H. rewrite <- (String.string_of_list_ascii_of_string s1), H.
  apply String.string_of_list_ascii_of_string.
Qed.

Lemma chars_rev_app s1 s2 : chars (String.rev_app s1 s2) = rev (chars s1) ++ chars s2.
Proof.
  revert s2. induction s1 as [|c s1 IH]; intros s2; cbn; [done|].
  rewrite IH. cbn. by rewrite <- app_assoc.
Qed.

Lemma chars_rev s : chars (String.rev s) = rev (chars s).
Proof. unfold String.rev. by rewrite chars_rev_app, app_nil_r. Qed.

Lemma rev_rev s : String.rev (String.rev s) = s.
Proof. apply chars_inj. by rewrite !chars_rev, rev_involutive. Qed.

Lemma nonempty_chars s : Str.nonempty s = true ↔ chars s ≠ [].
Proof. by destruct s. Qed.

(** what [lstrip] removes is white space, and what it leaves does not
    start with white space *)
Lemma lstrip_split s :
  ∃ ws, chars s = ws ++ chars (Str.lstrip s) ∧ Forall (λ c, Str.isspace c = true) ws.
Proof.
  induction s as [|c s (ws & Hs & Hws)]; [by exists []|].
  cbn [Str.lstrip]. destruct (Str.isspace c) eqn:E.
  - exists (c :: ws). cbn. rewrite Hs. by split; [|constructor].
  - by exists [].
Qed.

Lemma lstrip_clean s : starts_clean (chars (Str.lstrip s)).
Proof.
  induction s as [|c s IH]; [done|]. cbn [Str.lstrip].
  by destruct (Str.isspace c) eqn:E.
Qed.

Lemma lstrip_fixed s : starts_clean (chars s) → Str.lstrip s = s.
Proof. destruct s as [|c s]; [done|]. cbn. by intros ->. Qed.

Lemma starts_clean_prefix l1 l2 : l1 ≠ [] → starts_clean (l1 ++ l2) → starts_clean l1.
Proof. by destruct l1. Qed.

(** the result of [strip] starts and ends clean *)
Lemma strip_clean s :
  starts_clean (chars (Str.strip s)) ∧ starts_clean (rev (chars (Str.strip s))).
Proof.
  unfold Str.strip. rewrite chars_rev, rev_involutive. split; [|apply lstrip_clean].
  destruct (lstrip_split (String.rev (Str.lstrip s))) as (ws & Hs & _).
  rewrite chars_rev in Hs.
  destruct (chars (Str.lstrip (String.rev (Str.lstrip s)))) as [|c u] eqn:Eu; [done|].
  apply (starts_clean_prefix _ (rev ws)).
  - intros Hnil. apply (f_equal (@length ascii)) in Hnil.
    rewrite List.length_rev in Hnil. done.
  - rewrite <- rev_app_distr, <- Hs, rev_involutive. apply lstrip_clean.
Qed.

Lemma strip_fixed s :
  starts_clean (chars s) → starts_clean (rev (chars s)) → Str.strip s = s.
Proof.
  intros H1 H2. unfold Str.strip. rewrite (lstrip_fixed s) by done.
  rewrite (lstrip_fixed (String.rev s)) by (by rewrite chars_rev).
  apply rev_rev.
Qed.

(** [strip] is idempotent *)
Lemma strip_strip s : Str.strip (Str.strip s) = Str.strip s.
Proof. apply strip_fixed; apply strip_clean. Qed.

Lemma lstrip_chars s c : c ∈ chars (Str.lstrip s) → c ∈ chars s.
Proof.
  destruct (lstrip_split s) as (ws & -> & _). intros H. apply elem_of_app. by right.
Qed.

(** [strip] adds no character *)
Lemma strip_chars s c : c ∈ chars (Str.strip s) → c ∈ chars s.
Proof.
  unfold Str.strip. rewrite chars_rev, !list_elem_of_In, <- in_rev, <- !list_elem_of_In.
  intros H. apply lstrip_chars in H.
  rewrite chars_rev, !list_elem_of_In, <- in_rev, <- !list_elem_of_In in H.
  by apply lstrip_chars.
Qed.

Lemma chars_upper s : chars (Str.upper s) = map Str.upper_ascii (chars s).
Proof. induction s as [|c s IH]; cbn; [done|]. by rewrite IH. Qed.

Lemma upper_ascii_idem c : Str.upper_ascii (Str.upper_ascii c) = Str.upper_ascii c.
Proof. by destruct c as [[] [] [] [] [] [] [] []]. Qed.

Lemma isspace_upper c : Str.isspace (Str.upper_ascii c) = Str.isspace c.
Proof. by destruct c as [[] [] [] [] [] [] [] []]. Qed.

(** upper-casing makes no comma and no line feed *)
Lemma upper_ascii_comma c : Str.upper_ascii c = ","%char → c = ","%char.
Proof. by destruct c as [[] [] [] [] [] [] [] []]. Qed.

Lemma upper_ascii_newline c : Str.upper_ascii c = "010"%char → c = "010"%char.
Proof. by destruct c as [[] [] [] [] [] [] [] []]. Qed.

Lemma upper_upper s : Str.upper (Str.upper s) = Str.upper s.
Proof. induction s as [|c s IH]; cbn; [done|]. by rewrite upper_ascii_idem, IH. Qed.

Lemma upper_nonempty s : Str.nonempty (Str.upper s) = Str.nonempty s.
Proof. by destruct s. Qed.

(** upper-casing keeps a string trimmed *)
Lemma upper_clean s :
  starts_clean (chars s) → starts_clean (chars (Str.upper s)).
Proof. destruct s as [|c s]; [done|]. cbn. by rewrite isspace_upper. Qed.

Lemma upper_clean_rev s :
  starts_clean (rev (chars s)) → starts_clean (rev (chars (Str.upper s))).
Proof.
  rewrite chars_upper, <- map_rev. destruct (rev (chars s)) as [|c l]; [done|].
  cbn. by rewrite isspace_upper.
Qed.

Lemma replace_chars a b s c :
  c ∈ chars (Str.replace a b s) → c = b ∨ (c ≠ a ∧ c ∈ chars s).
Proof.
  induction s as [|x s IH]; cbn; [by intros ?%elem_of_nil|].
  intros [->|H]%elem_of_cons.
  - destruct (Ascii.eqb_spec x a) as [->|Hx]; [by left|].
    right. split; [done|left].
  - destruct (IH H) as [->|[Hc Hin]]; [by left|]. right. split; [done|by right].
Qed.

(** a piece of [split] holds no separator and only characters of the string *)
Lemma split_pieces sep s piece :
  piece ∈ Str.split sep s →
  (sep ∉ chars piece) ∧ (∀ c, c ∈ chars piece → c ∈ chars s).
Proof.
  revert piece. induction s as [|x s IH]; intros piece; cbn [Str.split].
  - intros ->%list_elem_of_singleton. cbn. split; [apply not_elem_of_nil|].
    by intros c ?%elem_of_nil.
  - destruct (Ascii.eqb_spec x sep) as [->|Hx].
    + intros [->|H]%elem_of_cons.
      * cbn. split; [apply not_elem_of_nil|]. by intros c ?%elem_of_nil.
      * destruct (IH _ H) as [H1 H2]. split; [done|]. intros c Hc. cbn. right. by apply H2.
    + destruct (Str.split sep s) as [|cur rest] eqn:E.
      * intros ->%list_elem_of_singleton. cbn. split.
        -- intros [->|?%elem_of_nil]%elem_of_cons; done.
        -- intros c [->|?%elem_of_nil]%elem_of_cons; [left|done].
      * intros [->|H]%elem_of_cons.
        -- destruct (IH cur) as [H1 H2]; [left|]. cbn. split.
           ++ intros [->|H]%elem_of_cons; [done|by apply H1].
           ++ intros c [->|H]%elem_of_cons; [left|right; by apply H2].
        -- destruct (IH piece) as [H1 H2]; [by right|]. split; [done|].
           intros c Hc. cbn. right. by apply H2.
Qed.

(** ** Vehicle numbers *)

Lemma sublist_member {A} (l1 l2 : list A) x : l1 `sublist_of` l2 → x ∈ l1 → x ∈ l2.
Proof.
  induction 1 as [|y l1 l2 _ IH|y l1 l2 _ IH]; [done| |].
  - intros [->|H]%elem_of_cons; [left|right; by apply IH].
  - intros H. right. by apply IH.
Qed.

Lemma fromkeys_fold (l : list string) :
  ∀ keys, NoDup keys →
    ∃ l', fold_left (λ keys k, if bool_decide (k ∈ keys) then keys else keys ++ [k]) l keys
          = keys ++ l' ∧
          NoDup (keys ++ l') ∧
          l' `sublist_of` l ∧
          (∀ k, k ∈ l → k ∈ keys ++ l') ∧
          (NoDup (keys ++ l) → l' = l).
Proof.
  induction l as [|x l IH]; intros keys Hkeys.
  - exists []. rewrite app_nil_r. split_and!; [done..|constructor| |done].
    by intros k ?%elem_of_nil.
  - cbn [fold_left]. case_bool_decide as Hx.
    + destruct (IH keys Hkeys) as (l' & Heq & Hnd & Hsub & Hin & Hsame).
      exists l'. split_and!; [done..|by apply sublist_cons| |].
      * intros k [->|Hk]%elem_of_cons; [apply elem_of_app; by left|by apply Hin].
      * intros Hd. apply NoDup_app in Hd as (_ & Hd & _). exfalso. apply (Hd x Hx). left.
    + destruct (IH (keys ++ [x])) as (l' & Heq & Hnd & Hsub & Hin & Hsame).
      { apply NoDup_app. split_and!; [done| |apply NoDup_singleton].
        by intros y Hy ->%list_elem_of_singleton. }
      exists (x :: l'). rewrite <- app_assoc in *. cbn in *.
      split_and!; [done..|by apply sublist_skip| |].
      * intros k [->|Hk]%elem_of_cons; [|by apply Hin].
        apply elem_of_app. right. left.
      * intros Hd. f_equal. by apply Hsame.
Qed.

(** what [dict.fromkeys] keeps *)
Lemma fromkeys_facts (l : list string) :
  NoDup (fromkeys l) ∧
  (∀ k, k ∈ fromkeys l ↔ k ∈ l) ∧
  fromkeys l `sublist_of` l ∧
  (NoDup l → fromkeys l = l) ∧
  (l ≠ [] → fromkeys l ≠ []).
Proof.
  unfold fromkeys.
  destruct (fromkeys_fold l [] (NoDup_nil_2)) as (l' & -> & Hnd & Hsub & Hin & Hsame).
  cbn in *. split_and!; try done.
  - intros k. split; [|apply Hin]. intros Hk. by eapply sublist_member.
  - destruct l as [|x l]; [done|]. intros _ ->.
    specialize (Hin x). rewrite elem_of_nil in Hin. apply Hin. left.
Qed.


(** a number as the form hands it on *)
Lemma manual_numbers_facts (manual_vehicles : option string) (k : string) :
  k ∈ manual_vehicle_numbers manual_vehicles →
  k ≠ "" ∧ Str.strip k = k ∧ Str.upper k = k ∧
  (","%char ∉ chars k) ∧ ("010"%char ∉ chars k).
Proof.
  unfold manual_vehicle_numbers. destruct (Str.nonempty _); [|by intros ?%elem_of_nil].
  intros (num & -> & Hnum)%list_elem_of_fmap.
  apply list_elem_of_In, filter_In in Hnum as [Hnum Hne].
  apply list_elem_of_In, split_pieces in Hnum as [Hnl Hchars].
  split_and!.
  - intros E. by rewrite <- upper_nonempty, E in Hne.
  - apply strip_fixed;
      [apply upper_clean|apply upper_clean_rev]; apply strip_clean.
  - apply upper_upper.
  - rewrite chars_upper. intros (c & Hc%eq_sym%upper_ascii_comma & Hin)%list_elem_of_fmap.
    subst c. apply strip_chars, Hchars, replace_chars in Hin as [Hin|[Hin _]]; done.
  - rewrite chars_upper. intros (c & Hc%eq_sym%upper_ascii_newline & Hin)%list_elem_of_fmap.
    subst c. by apply strip_chars in Hin.
Qed.

(** X1: every number read from the text box of the form is non-empty,
    trimmed and in upper case, and holds neither a comma nor a line feed. *)
Theorem manual_numbers_normalized (manual_vehicles : option string) (k : string) :
  k ∈ manual_vehicle_numbers manual_vehicles →
  k ≠ "" ∧ Str.strip k = k ∧ Str.upper k = k ∧
  (","%char ∉ chars k) ∧ ("010"%char ∉ chars k).
Proof. apply manual_numbers_facts. Qed.


(** ** [start_scraping] *)

(** a response that ends the reading of the numbers is no success *)
Lemma vehicle_numbers_refused f r : vehicle_numbers_of_form f = inl r → code r ≠ 200%Z.
Proof.
  unfold vehicle_numbers_of_form. repeat case_match; try done; by intros [= <-].
Qed.


(** X5: a request [start_scraping] accepts found no run active and is
    answered with 200; the new status is the initial one of its numbers,
    running, with their count as total, the count the answer gives; the
    numbers handed to the thread are at least one and pairwise different,
    the session identifier is non-empty and trimmed; numbers typed into the
    form are normalised one by one. *)
Theorem start_scraping_accepted st now f resp st' args :
  start_scraping st now f = (resp, st', Some args) →
  is_running st = false ∧
  code resp = 200%Z ∧
  body resp !! "total_vehicles"
    = Some (VInt (Z.of_nat (length (arg_vehicle_numbers args)))) ∧
  st' = initial_status (arg_vehicle_numbers args) (arg_session_id args) now ∧
  is_running st' = true ∧
  st' !! "total" = Some (VInt (Z.of_nat (length (arg_vehicle_numbers args)))) ∧
  arg_vehicle_numbers args ≠ [] ∧
  NoDup (arg_vehicle_numbers args) ∧
  arg_session_id args ≠ "" ∧
  Str.strip (arg_session_id args) = arg_session_id args ∧
  (form_vehicle_input_method f = Some "manual" →
   ∀ k, k ∈ arg_vehicle_numbers args →
     k ≠ "" ∧ Str.strip k = k ∧ Str.upper k = k ∧
     (","%char ∉ chars k) ∧ ("010"%char ∉ chars k)).
Proof.
  unfold start_scraping. intros H.
  destruct (is_running st) eqn:Hrun; [done|].
  destruct (form_max_workers f) as [|max_workers]; [done|].
  destruct (form_delay f) as [|delay]; [done|].
  destruct (Str.nonempty (Str.strip (default "" (form_session_id f)))) eqn:Hsid; [|done].
  cbn [negb] in H.
  destruct (vehicle_numbers_of_form f) as [|numbers] eqn:Hnum; [done|].
  destruct numbers as [|k0 numbers]; [done|].
  injection H as <- <- <-. cbn [arg_vehicle_numbers arg_session_id code body].
  destruct (fromkeys_facts (k0 :: numbers)) as (Hnd & Hmem & _ & _ & Hne).
  split_and!; try done.
  - by apply Hne.
  - intros E. by rewrite E in Hsid.
  - apply strip_strip.
  - intros Hmanual k Hk%Hmem. unfold vehicle_numbers_of_form in Hnum.
    rewrite Hmanual in Hnum. cbn in Hnum. injection Hnum as Hnum.
    apply (manual_numbers_facts (form_manual_vehicles f)). by rewrite Hnum.
Qed.

(** ** The status during and after a run *)

Lemma update_lookup_new new st key v :
  (list_to_map new : status_dict) !! key = Some v → update new st !! key = Some v.
Proof. intros H. unfold update. by rewrite lookup_union_l', H. Qed.

Lemma update_lookup_old new st key :
  (list_to_map new : status_dict) !! key = None → update new st !! key = st !! key.
Proof. intros H. unfold update. by rewrite lookup_union_r. Qed.

Lemma is_running_truthy st : is_running st = truthy_value (st !! "is_running") ∨
                             is_running st = false.
Proof. unfold is_running. destruct (st !! "is_running") as [[]|]; auto. Qed.

Lemma is_running_true st : is_running st = true → st !! "is_running" = Some (VBool true).
Proof. unfold is_running. by destruct (st !! "is_running") as [[| [] | | | |]|]. Qed.

Section RunFacts.

Variable BeautifulSoup : string → string + node.

(** whatever the cancel requests, the loop visits a prefix of the keys *)
Lemma scrape_loop_prefix scraper env n rest :
  ∀ i st results events,
    st !! "results" = Some (VList results) →
    ∃ m st',
      (m ≤ length rest)%nat ∧
      scrape_loop BeautifulSoup scraper env n i rest st results events =
      (st',
       results ++ sequential_map_from (key_record BeautifulSoup scraper env) i (take m rest),
       events ++ concat (sequential_map_from (key_events BeautifulSoup scraper env) i
                           (take m rest))) ∧
      st' !! "results"
        = Some (VList (results ++ sequential_map_from
                         (key_record BeautifulSoup scraper env) i (take m rest))) ∧
      ((m < length rest)%nat → is_running st' = false) ∧
      (∀ key, key ≠ "current_vehicle" → key ≠ "progress" →
              key ≠ "estimated_time_remaining" → key ≠ "results" →
              key ≠ "is_running" → st' !! key = st !! key).
Proof.
  induction rest as [|k rest IH]; intros i st results events Hres.
  - exists 0%nat, st. cbn. rewrite !app_nil_r. split_and!; [done..|lia|done].
  - destruct (cancel_request env i) eqn:Hc.
    { exists 0%nat, (cancel_scraping st).1. rewrite scrape_loop_cancelled by done.
      cbn. rewrite !app_nil_r. split_and!; [lia|done| | |].
      - by rewrite cancel_scraping_other.
      - intros _. apply cancel_scraping_stops.
      - intros key _ _ _ _ H. by apply cancel_scraping_other. }
    destruct (is_running st) eqn:Hrun.
    2:{ exists 0%nat, st. cbn [scrape_loop]. rewrite Hc, Hrun. cbn.
        rewrite !app_nil_r. split_and!; [lia|done..]. }
    rewrite scrape_loop_step by done.
    set (r := (get_vehicle_info BeautifulSoup scraper (calls env i) k).1).
    set (evs := (get_vehicle_info BeautifulSoup scraper (calls env i) k).2).
    destruct (IH (S i)
                (<["results" := VList (results ++ [r])]> (iteration_status env n i k st))
                (results ++ [r]) (events ++ evs))
      as (m & st' & Hm & Heq & Hres' & Hstop & Hother).
    { by rewrite lookup_insert_eq. }
    exists (S m), st'. cbn [take sequential_map_from concat length].
    rewrite Heq. unfold key_record at 3 5, key_events at 3. fold r evs.
    rewrite <- !app_assoc in *. cbn [app] in *. split_and!; [lia|done|done| |].
    + intros Hlt. apply Hstop. lia.
    + intros key H1 H2 H3 H4 H5. rewrite Hother by done.
      rewrite lookup_insert_ne by done. by apply iteration_status_other.
Qed.


(** X7: when the results of a run were saved, cancelled or not, the final
    status reports every key as progress, is completed without an error,
    names the two result files after one time stamp, and is what
    [get_progress] answers with, records included. *)
Theorem run_saved_status env vehicle_numbers session_id start_time max_workers
    delay nic contact st results events :
  run_scraping_task BeautifulSoup env
    (initial_status vehicle_numbers session_id start_time)
    vehicle_numbers session_id max_workers delay nic contact = (st, results, events) →
  save_results env results = None →
  st !! "progress" = Some (VInt (Z.of_nat (length vehicle_numbers))) ∧
  st !! "completed" = Some (VBool true) ∧
  st !! "error" = None ∧
  st !! "results" = Some (VList results) ∧
  st !! "csv_file" = Some (VStr ("vehicle_results_" +:+ strftime_now env +:+ ".csv")) ∧
  st !! "json_file" = Some (VStr ("vehicle_results_" +:+ strftime_now env +:+ ".json")) ∧
  get_progress st = st.
Proof.
  unfold run_scraping_task.
  destruct (scrape_loop_prefix
              (new_scraper max_workers delay nic contact (Some session_id)) env
              (length vehicle_numbers) vehicle_numbers 0
              (initial_status vehicle_numbers session_id start_time) [] [])
    as (m & st' & Hm & Heq & Hres & _ & Hother); [by vm_compute|].
  cbn [app] in *. rewrite Heq. intros H Hsave.
  destruct (save_results env _) as [e|] eqn:Hs.
  { injection H as <- <- <-. congruence. }
  injection H as <- <- <-.
  split_and!.
  - by apply update_lookup_new.
  - by apply update_lookup_new.
  - rewrite update_lookup_old by (by vm_compute). rewrite Hother by done. by vm_compute.
  - by apply update_lookup_new.
  - by apply update_lookup_new.
  - by apply update_lookup_new.
  - unfold get_progress.
    rewrite (update_lookup_new _ _ "completed" (VBool true)) by (by vm_compute).
    by rewrite andb_false_r.
Qed.

(** X8: when saving the results raised, the final status is not completed
    and holds the text of the exception and the records collected, but
    names no result file; [get_progress] then answers as if no run had ever
    been started, with neither the error nor the records. *)
Theorem run_aborted_status env vehicle_numbers session_id start_time max_workers
    delay nic contact st results events e :
  run_scraping_task BeautifulSoup env
    (initial_status vehicle_numbers session_id start_time)
    vehicle_numbers session_id max_workers delay nic contact = (st, results, events) →
  save_results env results = Some e →
  is_running st = false ∧
  st !! "completed" = Some (VBool false) ∧
  st !! "error" = Some (VStr e) ∧
  st !! "results" = Some (VList results) ∧
  st !! "csv_file" = None ∧
  st !! "json_file" = None ∧
  get_progress st = idle_progress.
Proof.
  unfold run_scraping_task.
  destruct (scrape_loop_prefix
              (new_scraper max_workers delay nic contact (Some session_id)) env
              (length vehicle_numbers) vehicle_numbers 0
              (initial_status vehicle_numbers session_id start_time) [] [])
    as (m & st' & Hm & Heq & Hres & _ & Hother); [by vm_compute|].
  cbn [app] in *. rewrite Heq. intros H Hsave.
  destruct (save_results env _) as [e'|] eqn:Hs.
  2:{ injection H as <- <- <-. congruence. }
  injection H as <- <- <-. assert (e' = e) as -> by congruence.
  assert (Hr : is_running
                 (update [("is_running", VBool false); ("error", VStr e);
                          ("completed", VBool false)] st') = false).
  { unfold is_running. by rewrite (update_lookup_new _ _ _ (VBool false)). }
  split_and!.
  - done.
  - by apply update_lookup_new.
  - by apply update_lookup_new.
  - by rewrite update_lookup_old.
  - rewrite update_lookup_old by (by vm_compute). rewrite Hother by done. by vm_compute.
  - rewrite update_lookup_old by (by vm_compute). rewrite Hother by done. by vm_compute.
  - unfold get_progress.
    rewrite (update_lookup_new _ _ "completed" (VBool false)) by (by vm_compute).
    by rewrite (update_lookup_new _ _ "is_running" (VBool false)) by (by vm_compute).
Qed.

End RunFacts.

(** X9: while a run is active [get_progress] answers with the status
    itself; once a cancel request is served it answers with the idle
    default, without records and with total 0, until the thread writes its
    final status. *)
Theorem progress_after_cancel (st : status_dict) :
  is_running st = true →
  truthy_value (st !! "completed") = false →
  get_progress st = st ∧
  get_progress (cancel_scraping st).1 = idle_progress.
Proof.
  intros Hrun Hcompleted. unfold get_progress, cancel_scraping. rewrite Hrun.
  cbn [fst]. rewrite lookup_insert_eq, lookup_insert_ne, Hcompleted by done.
  by rewrite (is_running_true st Hrun).
Qed.

(** X10: [cancel_scraping] is idempotent and writes nothing but
    [is_running]: a second request, like a request while no run is active,
    leaves the status as it is and says that no run is active. *)
Theorem cancel_scraping_idempotent (st : status_dict) :
  cancel_scraping (cancel_scraping st).1
    = ((cancel_scraping st).1, "No scraping process is running") ∧
  (is_running st = false → cancel_scraping st = (st, "No scraping process is running")) ∧
  (is_running st = true → (cancel_scraping st).2 = "Scraping cancelled") ∧
  is_running (cancel_scraping st).1 = false ∧
  (∀ key, key ≠ "is_running" → (cancel_scraping st).1 !! key = st !! key).
Proof.
  split_and!.
  - unfold cancel_scraping at 1. by rewrite cancel_scraping_stops.
  - intros H. unfold cancel_scraping. by rewrite H.
  - intros H. unfold cancel_scraping. by rewrite H.
  - apply cancel_scraping_stops.
  - intros key. apply cancel_scraping_other.
Qed.

(** ** Records and what becomes of them *)

Section RecordFacts.

Variable BeautifulSoup : string → string + node.

Lemma time_sleep_ok (secs : Q) : (0 <= secs)%Q → time_sleep secs = inr tt.
Proof. intros H. unfold time_sleep. apply Qle_bool_iff in H. by rewrite H. Qed.


Lemma parse_status html vehicle_number now :
  parse_vehicle_info BeautifulSoup html vehicle_number now !! "status" =
  Some (match BeautifulSoup html with inr _ => "success" | inl _ => "parse_error" end).
Proof.
  destruct (BeautifulSoup html) as [e|soup] eqn:E.
  - by rewrite (parse_raises _ _ e).
  - rewrite (parse_ok_fixed _ _ soup) by (done || decide_elem). by vm_compute.
Qed.



Lemma sequential_map_from_ext {A} (op op' : nat → string → A) keys :
  ∀ i, (∀ j key, op j key = op' j key) →
       sequential_map_from op i keys = sequential_map_from op' i keys.
Proof.
  induction keys as [|k keys IH]; intros i H; cbn; [done|]. by rewrite H, IH.
Qed.




Lemma row_step_dom result row :
  list_to_set table_fields ⊆ dom result → dom (row_step result row) = dom result.
Proof.
  intros Hsub. unfold row_step.
  destruct (row_assignment row) as [[field v]|] eqn:E; [|done].
  apply row_assignment_table in E. rewrite dom_insert_L.
  apply subseteq_union_1_L, singleton_subseteq_l, Hsub. by apply elem_of_list_to_set.
Qed.

Lemma rows_dom rows result :
  list_to_set table_fields ⊆ dom result →
  dom (fold_left row_step rows result) = dom result.
Proof.
  revert result. induction rows as [|row rows IH]; intros result Hsub; [done|].
  cbn [fold_left]. rewrite IH; rewrite row_step_dom; done.
Qed.

Lemma initial_result_dom vehicle_number now :
  dom (initial_result vehicle_number now)
  = list_to_set ["vehicle_number"; "status"; "timestamp"] ∪ list_to_set extracted_fields.
Proof.
  unfold initial_result. rewrite dom_list_to_map_L. cbn [fmap list_fmap fst].
  apply set_eq. intros k. rewrite elem_of_union, !elem_of_list_to_set.
  unfold extracted_fields, table_fields. rewrite !elem_of_cons, !elem_of_nil. tauto.
Qed.

Lemma extract_report_date_dom soup vehicle_number now :
  dom (extract_report_date soup (initial_result vehicle_number now))
  = dom (initial_result vehicle_number now).
Proof.
  unfold extract_report_date. by repeat case_match.
Qed.

(** the keys of the record of a key *)
Lemma get_vehicle_info_dom self w vehicle_number :
  dom (get_vehicle_info BeautifulSoup self w vehicle_number).1
  = (if bool_decide ((get_vehicle_info BeautifulSoup self w vehicle_number).1 !! "status"
                     = Some "success")
     then list_to_set ["vehicle_number"; "status"; "timestamp"]
            ∪ list_to_set extracted_fields
     else list_to_set ["vehicle_number"; "status"; "error"; "timestamp"]).
Proof.
  destruct (get_vehicle_info_cases BeautifulSoup self w vehicle_number)
    as [[e ->]|[[e ->]|(text & soup & E & ->)]].
  - rewrite bool_decide_eq_false_2 by (by vm_compute).
    unfold failure_record. by rewrite dom_list_to_map_L.
  - rewrite bool_decide_eq_false_2 by (by vm_compute).
    unfold failure_record. by rewrite dom_list_to_map_L.
  - rewrite bool_decide_eq_true_2 by (by rewrite parse_status, E).
    rewrite (parse_ok _ _ soup) by done.
    rewrite rows_dom; rewrite extract_report_date_dom, initial_result_dom; [done|].
    intros k Hk%elem_of_list_to_set. apply elem_of_union. right.
    apply elem_of_list_to_set. by right.
Qed.

(** X13: a record holds exactly the keys of its shape: the key, status and
    timestamp with the eight extracted attributes and no error when the
    status is "success", and the key, status, error and timestamp alone
    otherwise; the page never adds a key or takes one away. *)
Theorem record_keys self w vehicle_number :
  dom (get_vehicle_info BeautifulSoup self w vehicle_number).1
  = (if bool_decide ((get_vehicle_info BeautifulSoup self w vehicle_number).1 !! "status"
                     = Some "success")
     then list_to_set ["vehicle_number"; "status"; "timestamp"]
            ∪ list_to_set extracted_fields
     else list_to_set ["vehicle_number"; "status"; "error"; "timestamp"]).
Proof. apply get_vehicle_info_dom. Qed.

End RecordFacts.

(** ** The CSV file *)

Section CsvFacts.

Variable BeautifulSoup : string → string + node.

Lemma csv_row_fields (result : dict) :
  (∀ k, k ∈ dom result → k ∈ fieldnames) → csv_row result = inr (csv_cells result).
Proof.
  intros Hdom. unfold csv_row.
  destruct (List.filter _ _) as [|k wrong] eqn:E; [done|].
  assert (Hk : In k (List.filter (λ k, negb (bool_decide (k ∈ fieldnames)))
                       (map fst (map_to_list result)))) by (rewrite E; by left).
  apply filter_In in Hk as [Hin Hneg]. apply in_map_iff in Hin as ([k' v] & <- & Hin).
  apply list_elem_of_In, elem_of_map_to_list in Hin. cbn in Hneg.
  rewrite bool_decide_eq_true_2 in Hneg; [done|].
  apply Hdom, elem_of_dom. by eexists.
Qed.

Lemma record_fields self w vehicle_number k :
  k ∈ dom (get_vehicle_info BeautifulSoup self w vehicle_number).1 → k ∈ fieldnames.
Proof.
  rewrite get_vehicle_info_dom. intros Hk.
  apply (elem_of_list_to_set (C := gset string)). revert k Hk.
  apply elem_of_subseteq. case_bool_decide; decide_elem.
Qed.

Lemma write_rows_records (results : list dict) :
  Forall (λ r, ∃ self w vehicle_number,
            r = (get_vehicle_info BeautifulSoup self w vehicle_number).1) results →
  ∀ written, write_rows written results = Written (written ++ map csv_cells results).
Proof.
  induction 1 as [|r results (self & w & k & ->) _ IH]; intros written; cbn.
  - by rewrite app_nil_r.
  - rewrite csv_row_fields by apply record_fields. rewrite IH. by rewrite <- app_assoc.
Qed.

(** X14: the CSV writer never refuses a record the scraper made: for the
    records of any run it writes the header and one row of twelve cells per
    record, which starts with the key of the record, and raises nothing.
    For an empty list it writes no file at all. *)
Theorem csv_rows_of_records (results : list dict) :
  Forall (λ r, ∃ self w vehicle_number,
            r = (get_vehicle_info BeautifulSoup self w vehicle_number).1) results →
  save_results_to_csv results
    = match results with
      | [] => NoFile
      | _ => Written (fieldnames :: map csv_cells results)
      end ∧
  Forall (λ r, length (csv_cells r) = 12%nat ∧
               csv_cells r !! 0%nat = r !! "vehicle_number" ∧
               is_Some (r !! "vehicle_number")) results.
Proof.
  intros Hall. split.
  - destruct results as [|r results]; [done|]. unfold save_results_to_csv.
    by rewrite write_rows_records.
  - eapply Forall_impl; [exact Hall|]. intros r (self & w & k & ->).
    split; [done|]. unfold csv_cells. cbn [map fieldnames].
    rewrite (get_vehicle_info_key BeautifulSoup self w k). by split; [|eexists].
Qed.

End CsvFacts.

(** ** [validate_session] *)

Section ValidateFacts.

Variable BeautifulSoup : string → string + node.

Lemma parse_no_error html soup vehicle_number now :
  BeautifulSoup html = inr soup →
  parse_vehicle_info BeautifulSoup html vehicle_number now !! "error" = None.
Proof.
  intros E. rewrite (parse_ok_fixed _ _ soup) by (done || decide_elem). by vm_compute.
Qed.

(** X15: [validate_session] refuses a blank session identifier without
    sending anything.  Otherwise it sends exactly one request, for the
    number "TEST123" and with the trimmed identifier as session cookie, and
    calls the session valid exactly when the answer has code 200 and the
    parser takes its text, whatever the page says. *)
Theorem validate_session_valid w (session_id : option string) :
  (Str.nonempty (Str.strip (default "" session_id)) = false →
   validate_session BeautifulSoup w session_id = (false, "Session ID is required", [])) ∧
  (Str.nonempty (Str.strip (default "" session_id)) = true →
   (validate_session BeautifulSoup w session_id).2
     = [Sleep 1;
        Post (request_for
                (new_scraper 5 1 "2200000000" "0777777777"
                   (Some (Str.strip (default "" session_id)))) "TEST123")] ∧
   req_cookies (request_for
                  (new_scraper 5 1 "2200000000" "0777777777"
                     (Some (Str.strip (default "" session_id)))) "TEST123")
     !! "JSESSIONID" = Some (Str.strip (default "" session_id)) ∧
   ((validate_session BeautifulSoup w session_id).1.1 = true ↔
    ∃ text soup,
      requests_post w
        (request_for
           (new_scraper 5 1 "2200000000" "0777777777"
              (Some (Str.strip (default "" session_id)))) "TEST123")
      = Response 200 text ∧
      BeautifulSoup text = inr soup)).
Proof.
  unfold validate_session. split; [by intros ->|]. intros Hsid. rewrite Hsid. cbn [negb].
  set (scraper := new_scraper 5 1 "2200000000" "0777777777"
                    (Some (Str.strip (default "" session_id)))).
  pose proof (get_vehicle_info_truthy BeautifulSoup scraper w "TEST123") as Ht.
  pose proof (get_vehicle_info_events BeautifulSoup scraper w "TEST123") as Hev.
  pose proof (get_vehicle_info_result BeautifulSoup scraper w "TEST123") as Hres.
  destruct (get_vehicle_info BeautifulSoup scraper w "TEST123") as [r evs].
  cbn [fst snd] in *. rewrite Ht, Hev, Hres by done. cbn [andb].
  split_and!.
  - by destruct (negb _).
  - unfold scraper, request_for, new_scraper, or_default. cbn. by rewrite Hsid.
  - destruct (requests_post w _) as [code text|e].
    + destruct (Z.eqb_spec code 200) as [->|Hcode].
      * destruct (BeautifulSoup text) as [e|soup] eqn:E.
        -- rewrite (parse_raises _ _ e) by done.
           split; [by vm_compute|]. intros (text' & soup & [= <-] & E'). congruence.
        -- rewrite bool_decide_eq_false_2.
           ++ split; [by eauto|done].
           ++ rewrite (parse_no_error _ soup) by done. by intros [? ?].
      * split; [by vm_compute|]. by intros (? & ? & [= ? _] & _).
    + split; [by vm_compute|]. by intros (? & ? & ? & _).
Qed.

End ValidateFacts.

(** ** [duration_format] *)

(** hours, minutes and seconds are those of the whole seconds *)
Lemma duration_parts_floor (x : Q) :
  duration_parts x
  = ((Qfloor x / 3600)%Z, ((Qfloor x mod 3600) / 60)%Z, (Qfloor x mod 60)%Z).
Proof.
  destruct x as [p q]. unfold duration_parts, floordiv, pymod.
  unfold Qfloor, Qdiv, Qmult, Qinv, Qminus, Qplus, Qopp, inject_Z. cbn.
  rewrite !Pos2Z.inj_mul, !Z.mul_1_r.
  assert (Hq : (Z.pos q ≠ 0)%Z) by done.
  rewrite <- !Z.div_div by lia.
  set (P := (p / Z.pos q)%Z).
  f_equal; [f_equal|].
  - replace (p + - (3600 * (P / 3600)) * Z.pos q)%Z
      with (p + (- (3600 * (P / 3600))) * Z.pos q)%Z by ring.
    rewrite Z.div_add by done. fold P. rewrite Z.mod_eq by done. f_equal; try ring.
  - replace (p + - (60 * (P / 60)) * Z.pos q)%Z
      with (p + (- (60 * (P / 60))) * Z.pos q)%Z by ring.
    rewrite Z.div_add by done. fold P. rewrite Z.mod_eq by done. try ring.
Qed.

Lemma duration_format_floor v s :
  number_of v = Some s →
  duration_format v =
  if (3600 <=? Qfloor s)%Z then
    pretty (Qfloor s / 3600)%Z +:+ "h " +:+ pretty ((Qfloor s mod 3600) / 60)%Z +:+ "m "
      +:+ pretty (Qfloor s mod 60)%Z +:+ "s"
  else if (60 <=? Qfloor s mod 3600)%Z then
    pretty ((Qfloor s mod 3600) / 60)%Z +:+ "m " +:+ pretty (Qfloor s mod 60)%Z +:+ "s"
  else
    pretty (Qfloor s mod 60)%Z +:+ "s".
Proof.
  intros Hv. unfold duration_format. rewrite Hv, duration_parts_floor.
  assert (H1 : (0 <? Qfloor s / 3600)%Z = (3600 <=? Qfloor s)%Z).
  { destruct (Z.ltb_spec 0 (Qfloor s / 3600)), (Z.leb_spec 3600 (Qfloor s)); try done;
      Z.to_euclidean_division_equations; lia. }
  assert (H2 : (0 <? Qfloor s mod 3600 / 60)%Z = (60 <=? Qfloor s mod 3600)%Z).
  { destruct (Z.ltb_spec 0 (Qfloor s mod 3600 / 60)), (Z.leb_spec 60 (Qfloor s mod 3600));
      try done; Z.to_euclidean_division_equations; lia. }
  by rewrite H1, H2.
Qed.


(** X17: a negative number of seconds is shown without hours and without
    sign, as the time left to the next full hour: [n] like [n mod 3600], so
    that -1 reads "59m 59s"; less than a minute reads as seconds alone. *)
Theorem duration_format_negative (n : Z) :
  ((n < 0)%Z → duration_format (VInt n) = duration_format (VInt (n mod 3600))) ∧
  ((0 ≤ n < 60)%Z → duration_format (VInt n) = pretty n +:+ "s").
Proof.
  split; intros Hn.
  - rewrite (duration_format_floor (VInt n) (inject_Z n)) by done.
    rewrite (duration_format_floor (VInt (n mod 3600)) (inject_Z (n mod 3600))) by done.
    rewrite !Qfloor_Z.
    assert (Hr : (0 ≤ n mod 3600 < 3600)%Z) by (apply Z.mod_pos_bound; lia).
    rewrite (proj2 (Z.leb_gt 3600 n)) by lia.
    rewrite (proj2 (Z.leb_gt 3600 (n mod 3600))) by lia.
    rewrite Z.mod_mod by done.
    replace ((n mod 3600) mod 60)%Z with (n mod 60)%Z; [done|].
    Z.to_euclidean_division_equations; lia.
  - rewrite (duration_format_floor (VInt n) (inject_Z n)) by done. rewrite Qfloor_Z.
    rewrite (proj2 (Z.leb_gt 3600 n)) by lia.
    rewrite (Z.mod_small n 3600), (Z.mod_small n 60) by lia.
    by rewrite (proj2 (Z.leb_gt 60 n)) by lia.
Qed.

(** ** The command line *)

Section ConfigurationFacts.

Variable BeautifulSoup : string → string + node.
Variable py_int : string → option Z.
Variable py_float : string → option Q.

Lemma read_max_workers_bounds stdin max_workers rest :
  read_max_workers py_int stdin = Some (max_workers, rest) →
  (1 ≤ max_workers ≤ 10)%Z ∧ rest `suffix_of` stdin.
Proof.
  induction stdin as [|line stdin IH]; [done|]. cbn [read_max_workers].
  assert (Hrec : read_max_workers py_int stdin = Some (max_workers, rest) →
                 (1 ≤ max_workers ≤ 10)%Z ∧ rest `suffix_of` line :: stdin).
  { intros [H1 H2]%IH. split; [done|by apply suffix_cons_r]. }
  destruct (if Str.nonempty _ then _ else _) as [n|]; [|done].
  destruct (1 <=? n)%Z eqn:E1; [|done]. destruct (n <=? 10)%Z eqn:E2; [|done].
  cbn [andb]. intros [= <- <-]. split; [lia|]. by apply suffix_cons_r.
Qed.

Lemma read_delay_bounds stdin delay rest :
  read_delay py_float stdin = Some (delay, rest) →
  (float_0_1 <= delay)%Q ∧ (delay <= 10)%Q ∧ rest `suffix_of` stdin.
Proof.
  induction stdin as [|line stdin IH]; [done|]. cbn [read_delay].
  assert (Hrec : read_delay py_float stdin = Some (delay, rest) →
                 (float_0_1 <= delay)%Q ∧ (delay <= 10)%Q ∧ rest `suffix_of` line :: stdin).
  { intros (H1 & H2 & H3)%IH. split_and!; [done..|by apply suffix_cons_r]. }
  destruct (if Str.nonempty _ then _ else _) as [d|]; [|done].
  destruct (Qle_bool float_0_1 d) eqn:E1; [|done]. destruct (Qle_bool d 10) eqn:E2; [|done].
  cbn [andb]. intros [= <- <-].
  split_and!; [by apply Qle_bool_iff..|by apply suffix_cons_r].
Qed.

(** X18: a configuration [get_configuration] returns has between 1 and 10
    workers, a delay between the floats 0.1 and 10, and a non-empty NIC and
    contact number, whatever was typed; what is left of the input is a
    suffix of the input. *)
Theorem get_configuration_bounds stdin config rest :
  get_configuration py_int py_float stdin = Some (config, rest) →
  (1 ≤ config_max_workers config ≤ 10)%Z ∧
  (float_0_1 <= config_delay config)%Q ∧ (config_delay config <= 10)%Q ∧
  config_nic config ≠ "" ∧ config_contact config ≠ "" ∧
  rest `suffix_of` stdin.
Proof.
  unfold get_configuration.
  destruct (read_max_workers py_int stdin) as [[mw stdin1]|] eqn:Hmw; [|done].
  destruct (read_delay py_float stdin1) as [[d stdin2]|] eqn:Hd; [|done].
  destruct stdin2 as [|nic [|contact stdin3]]; [done..|].
  intros [= <- <-]. cbn.
  apply read_max_workers_bounds in Hmw as [Hmw Hs1].
  apply read_delay_bounds in Hd as (Hd1 & Hd2 & Hs2).
  split_and!; [lia|lia|done|done| | |].
  - by destruct (Str.strip nic).
  - by destruct (Str.strip contact).
  - etrans; [|exact Hs1]. etrans; [|exact Hs2].
    by apply suffix_cons_r, suffix_cons_r.
Qed.

(** X19: with a configuration [get_configuration] returned, [main] gets
    from [process_vehicles] one record per vehicle number, in whatever
    order the requests complete: the executor starts, every call pauses and
    sends exactly one request, the counts of successes and of failures add
    up to the number of vehicle numbers, and the list whose length divides
    the success rate is empty only if there were no numbers. *)
Theorem main_counts_every_number stdin config rest session_cookie calls clock order
    vehicle_numbers :
  get_configuration py_int py_float stdin = Some (config, rest) →
  order ≡ₚ seq 0 (length vehicle_numbers) →
  ∃ results,
    process_vehicles BeautifulSoup (main_scraper config session_cookie) calls clock order
      vehicle_numbers = inr results ∧
    length results = length vehicle_numbers ∧
    (successful results + failed results = length vehicle_numbers)%nat ∧
    (vehicle_numbers ≠ [] → (0 < length results)%nat) ∧
    (∀ w vehicle_number,
       (get_vehicle_info BeautifulSoup (main_scraper config session_cookie) w
          vehicle_number).2
       = [Sleep (config_delay config);
          Post (request_for (main_scraper config session_cookie) vehicle_number)]).
Proof.
  intros Hconfig Hperm.
  unfold get_configuration in Hconfig.
  destruct (read_max_workers py_int stdin) as [[mw stdin1]|] eqn:Hmw; [|done].
  destruct (read_delay py_float stdin1) as [[d stdin2]|] eqn:Hd; [|done].
  destruct stdin2 as [|nic [|contact stdin3]]; [done..|].
  injection Hconfig as <- <-.
  apply read_max_workers_bounds in Hmw as [Hmw _].
  apply read_delay_bounds in Hd as (Hd1 & _ & _).
  eexists. split; [apply process_vehicles_ok; cbn; lia|].
  pose proof (completed_permutation BeautifulSoup
                (main_scraper
                   {| config_max_workers := mw; config_delay := d;
                      config_nic := if Str.nonempty (Str.strip nic)
                                    then Str.strip nic else "2200000000";
                      config_contact := if Str.nonempty (Str.strip contact)
                                        then Str.strip contact else "0777777777" |}
                   session_cookie) calls order vehicle_numbers Hperm) as Hp.
  assert (Hlen : length (omap (λ i, records_in_key_order BeautifulSoup
                   (main_scraper
                      {| config_max_workers := mw; config_delay := d;
                         config_nic := if Str.nonempty (Str.strip nic)
                                       then Str.strip nic else "2200000000";
                         config_contact := if Str.nonempty (Str.strip contact)
                                           then Str.strip contact else "0777777777" |}
                      session_cookie) calls vehicle_numbers !! i) order)
                 = length vehicle_numbers).
  { by rewrite Hp, length_records. }
  split_and!.
  - done.
  - unfold failed, successful.
    pose proof (List.filter_length_le
                  (λ r : dict, bool_decide (r !! "status" = Some "success"))
                  (omap (λ i, records_in_key_order BeautifulSoup
                     (main_scraper
                        {| config_max_workers := mw; config_delay := d;
                           config_nic := if Str.nonempty (Str.strip nic)
                                         then Str.strip nic else "2200000000";
                           config_contact := if Str.nonempty (Str.strip contact)
                                             then Str.strip contact else "0777777777" |}
                        session_cookie) calls vehicle_numbers !! i) order)).
    lia.
  - intros Hne. rewrite Hlen. destruct vehicle_numbers; [done|cbn; lia].
  - intros w k. apply get_vehicle_info_events. cbn.
    apply Qle_trans with float_0_1; [by vm_compute|done].
Qed.

End ConfigurationFacts.

(** ** From the form to the records *)

Section StartedRun.

Variable BeautifulSoup : string → string + node.

Lemma sequential_map_keys scraper env keys :
  ∀ i, (λ r : dict, r !! "vehicle_number")
         <$> sequential_map_from (key_record BeautifulSoup scraper env) i keys
       = Some <$> keys.
Proof.
  induction keys as [|k keys IH]; intros i; cbn; [done|].
  unfold key_record at 1. by rewrite get_vehicle_info_key, IH.
Qed.

(** X20: a run started by an accepted request and reached by no cancel
    request ends with exactly one record for each of the numbers of the
    request, duplicates removed, in their order: the keys of its records are
    those numbers, pairwise different, and their count is the total the
    answer to the request announced and the final status holds. *)
Theorem started_run_covers_numbers st now f resp st' args env :
  start_scraping st now f = (resp, st', Some args) →
  (∀ i, (i < length (arg_vehicle_numbers args))%nat → cancel_request env i = false) →
  ∃ final results events,
    run_scraping_task BeautifulSoup env st' (arg_vehicle_numbers args)
      (arg_session_id args) (arg_max_workers args) (arg_delay args)
      (arg_nic args) (arg_contact args) = (final, results, events) ∧
    (λ r : dict, r !! "vehicle_number") <$> results = Some <$> arg_vehicle_numbers args ∧
    NoDup ((λ r : dict, r !! "vehicle_number") <$> results) ∧
    final !! "total" = Some (VInt (Z.of_nat (length results))) ∧
    body resp !! "total_vehicles" = Some (VInt (Z.of_nat (length results))) ∧
    final !! "results" = Some (VList results) ∧
    is_running final = false.
Proof.
  unfold start_scraping. intros H Hc.
  destruct (is_running st) eqn:Hrun; [done|].
  destruct (form_max_workers f) as [|max_workers]; [done|].
  destruct (form_delay f) as [|delay]; [done|].
  destruct (Str.nonempty (Str.strip (default "" (form_session_id f)))) eqn:Hsid; [|done].
  cbn [negb] in H.
  destruct (vehicle_numbers_of_form f) as [|numbers] eqn:Hnum; [done|].
  destruct numbers as [|k0 numbers]; [done|].
  injection H as <- <- <-.
  cbn [arg_vehicle_numbers arg_session_id arg_max_workers arg_delay arg_nic arg_contact
       code body] in *.
  destruct (fromkeys_facts (k0 :: numbers)) as (Hnd & _).
  set (keys := fromkeys (k0 :: numbers)) in *.
  set (sid := Str.strip (default "" (form_session_id f))) in *.
  pose proof (initial_status_lookups keys sid now) as (Hrun0 & Hres0 & _).
  unfold run_scraping_task.
  destruct (scrape_loop_app BeautifulSoup
              (new_scraper max_workers delay
                 (Str.strip (default "2200000000" (form_nic f)))
                 (Str.strip (default "0777777777" (form_contact f))) (Some sid))
              env (length keys) keys 0 [] (initial_status keys sid now) [] [] Hrun0 Hres0)
    as (st1 & Heq & _ & Hres1 & Hother).
  { intros j Hj. apply Hc. lia. }
  rewrite app_nil_r in Heq. rewrite Heq. cbn [scrape_loop app] in *.
  set (results := sequential_map_from _ 0 keys) in *.
  assert (Hkeys : (λ r : dict, r !! "vehicle_number") <$> results = Some <$> keys)
    by apply sequential_map_keys.
  assert (Hlen : length results = length keys) by apply sequential_map_from_length.
  assert (Htotal : st1 !! "total" = Some (VInt (Z.of_nat (length results)))).
  { rewrite Hother, Hlen by done. by vm_compute. }
  destruct (save_results env results) as [e|]; eexists _, _, _; (split; [done|]).
  - split_and!; [done| | | | |].
    + rewrite Hkeys. by apply (NoDup_fmap_2 Some).
    + by rewrite update_lookup_old.
    + by rewrite Hlen.
    + by rewrite update_lookup_old.
    + unfold is_running. by rewrite (update_lookup_new _ _ _ (VBool false)).
  - split_and!; [done| | | | |].
    + rewrite Hkeys. by apply (NoDup_fmap_2 Some).
    + by rewrite update_lookup_old.
    + by rewrite Hlen.
    + by apply update_lookup_new.
    + unfold is_running. by rewrite (update_lookup_new _ _ _ (VBool false)).
Qed.

End StartedRun.

(** ** The values of a record *)

Lemma chars_append s1 s2 : chars (s1 +:+ s2) = chars s1 ++ chars s2.
Proof. induction s1 as [|c s1 IH]; simpl; [done|]. by f_equal. Qed.

Lemma chars_join (l : list string) : chars (Str.join "" l) = concat (map chars l).
Proof.
  unfold Str.join. induction l as [|x l IH]; [done|].
  cbn [map concat]. rewrite <- IH. destruct l as [|y l]; [by rewrite app_nil_r|].
  change (String.concat "" (x :: y :: l)) with (x +:+ "" +:+ String.concat "" (y :: l)).
  by rewrite !chars_append.
Qed.

Lemma starts_clean_app l1 l2 : l1 ≠ [] → starts_clean l1 → starts_clean (l1 ++ l2).
Proof. by destruct l1. Qed.

(** pieces that are trimmed and not empty make a trimmed whole *)
Lemma concat_clean (ls : list (list ascii)) :
  Forall (λ l, l ≠ [] ∧ starts_clean l ∧ starts_clean (rev l)) ls →
  starts_clean (concat ls) ∧ starts_clean (rev (concat ls)).
Proof.
  induction 1 as [|l ls (Hne & H1 & H2) _ [IH1 IH2]]; [done|].
  cbn [concat]. split; [by apply starts_clean_app|].
  rewrite rev_app_distr. destruct (concat ls) as [|c cs] eqn:E; [done|].
  apply starts_clean_app; [|done].
  intros Hnil. apply (f_equal (@length ascii)) in Hnil. by rewrite List.length_rev in Hnil.
Qed.

(** the text [get_text(strip=True)] returns is trimmed *)
Lemma get_text_strip_trimmed n : Str.strip (Bs4.get_text_strip n) = Bs4.get_text_strip n.
Proof.
  unfold Bs4.get_text_strip. apply strip_fixed; rewrite chars_join; apply concat_clean.
  all: apply Forall_forall; intros l Hl%list_elem_of_In%in_map_iff.
  all: destruct Hl as (s & <- & [Hs Hne]%filter_In).
  all: apply in_map_iff in Hs as (piece & <- & _).
  all: split; [by apply nonempty_chars|apply strip_clean].
Qed.

Lemma take_dots_no_newline t : "010"%char ∉ chars (Re.take_dots t).
Proof.
  induction t as [|c t IH]; cbn; [apply not_elem_of_nil|].
  unfold Re.is_dot. destruct (Ascii.eqb_spec c "010"%char) as [->|Hc]; cbn.
  - apply not_elem_of_nil.
  - intros [E|H]%elem_of_cons; [by subst|done].
Qed.

Lemma ws_star_result {A} (k : string → option A) t r :
  Re.ws_star k t = Some r → ∃ t', k t' = Some r.
Proof.
  induction t as [|c t IH]; cbn; [by eauto|].
  destruct (Str.isspace c); [|by eauto].
  destruct (Re.ws_star k t) as [r'|]; [intros [= <-]; by apply IH|by eauto].
Qed.

Lemma search_result {A} (m : string → option A) s r :
  Re.search m s = Some r → ∃ s', m s' = Some r.
Proof.
  induction s as [|c s IH]; cbn.
  - destruct (m "") eqn:E; [intros [= <-]; by eauto|done].
  - destruct (m (String c s)) eqn:E; [intros [= <-]; by eauto|exact IH].
Qed.

(** the group the report date is read from holds no line feed *)
Lemma search_value_no_newline l s g :
  Re.search_value l s = Some g → "010"%char ∉ chars g.
Proof.
  unfold Re.search_value. intros (s1 & H)%search_result.
  unfold Re.lit in H. destruct (String.prefix l s1); [|done].
  apply ws_star_result in H as (s2 & H). unfold Re.char in H.
  destruct s2 as [|c s2]; [done|]. destruct (Ascii.eqb ":" c); [|done].
  apply ws_star_result in H as (s3 & H). unfold Re.dot_plus in H.
  destruct (Str.nonempty _); [|done]. injection H as <-. apply take_dots_no_newline.
Qed.

Section ValueFacts.

Variable BeautifulSoup : string → string + node.

(** X21: in the record of a page the parser took, every extracted
    attribute is trimmed: it neither starts nor ends with white space; the
    report date, in addition, holds no line feed. *)
Theorem extracted_values_trimmed html soup vehicle_number now field v :
  BeautifulSoup html = inr soup →
  field ∈ extracted_fields →
  parse_vehicle_info BeautifulSoup html vehicle_number now !! field = Some v →
  Str.strip v = v ∧ (field = "report_date" → "010"%char ∉ chars v).
Proof.
  intros E Hf. rewrite (parse_ok _ _ soup) by done. intros Hv.
  assert (Hdate : ∀ w, extract_report_date soup (initial_result vehicle_number now)
                         !! "report_date" = Some w →
                       Str.strip w = w ∧ "010"%char ∉ chars w).
  { intros w. unfold extract_report_date.
    destruct (Bs4.find_text _ _ _) as [[parent label]|].
    - destruct (Re.search_value _ _) as [g|] eqn:Eg.
      + rewrite lookup_insert_eq. intros [= <-]. split; [apply strip_strip|].
        intros Hin%strip_chars. by apply (search_value_no_newline _ _ _ Eg).
      + intros H. vm_compute in H. injection H as <-. split; [done|apply not_elem_of_nil].
    - intros H. vm_compute in H. injection H as <-. split; [done|apply not_elem_of_nil]. }
  apply elem_of_cons in Hf as [->|Hf].
  - rewrite rows_non_table in Hv by apply report_date_not_table.
    destruct (Hdate v Hv). by split.
  - split; [|intros ->; by apply report_date_not_table in Hf].
    apply rows_assigned_by in Hv as [Hv|(row & _ & Ha)].
    + rewrite extract_report_date_other in Hv.
      * rewrite initial_result_extracted in Hv by (by right). by injection Hv as <-.
      * intros ->. by apply report_date_not_table in Hf.
    + apply row_assignment_inv in Ha as (_ & value_cell & _ & _ & _ & ->).
      apply get_text_strip_trimmed.
Qed.

End ValueFacts.

(** ** The further properties on examples *)

(** X1 on two numbers typed on one line. *)
Lemma manual_numbers_normalized_witness :
  manual_vehicle_numbers (Some SampleWeb.typed) = ["AB-1234"; "CD 5678"; "AB-1234"] ∧
  Str.strip "CD 5678" = "CD 5678" ∧ Str.upper "CD 5678" = "CD 5678".
Proof.
  split; [by vm_compute|].
  destruct (manual_numbers_normalized (Some SampleWeb.typed) "CD 5678")
    as (_ & Hstrip & Hupper & _); [decide_elem|done].
Defined.




(** X5 on the two numbers typed. *)
Lemma start_scraping_accepted_witness :
  ∃ resp st' args,
    start_scraping SampleWeb.idle_status 0 (SampleWeb.manual_form SampleWeb.typed)
      = (resp, st', Some args) ∧
    arg_vehicle_numbers args = ["AB-1234"; "CD 5678"] ∧
    arg_session_id args = "SESSION" ∧
    code resp = 200%Z ∧ NoDup (arg_vehicle_numbers args).
Proof.
  destruct (start_scraping SampleWeb.idle_status 0 (SampleWeb.manual_form SampleWeb.typed))
    as [[resp st'] [args|]] eqn:H; [|by vm_compute in H].
  exists resp, st', args. split; [done|].
  destruct (start_scraping_accepted _ _ _ _ _ _ H) as (_ & Hcode & _ & _ & _ & _ & _ & Hnd & _).
  vm_compute in H. injection H as _ _ <-. by split_and!.
Defined.

(** X7 on the run of five keys cancelled after two. *)
Lemma run_saved_status_witness :
  (Sample.run 2 (Some 2%nat) None).1.1 !! "progress" = Some (VInt 5) ∧
  length (Sample.run 2 (Some 2%nat) None).1.2 = 2%nat.
Proof.
  split; [|by vm_compute].
  destruct (Sample.run 2 (Some 2%nat) None) as [[st results] events] eqn:H.
  by destruct (run_saved_status (Sample.parser_of Sample.soup_details)
                 (Sample.world (Some 2%nat) None) Sample.five_keys "SESSION" 0 2 (1 # 2)
                 "2200000000" "0777777777" st results events H eq_refl) as (Hp & _).
Defined.

(** X8 on a run whose results cannot be saved. *)
Lemma run_aborted_status_witness :
  get_progress (Sample.run 2 None (Some "disk full")).1.1 = idle_progress ∧
  (Sample.run 2 None (Some "disk full")).1.1 !! "error" = Some (VStr "disk full").
Proof.
  destruct (Sample.run 2 None (Some "disk full")) as [[st results] events] eqn:H.
  destruct (run_aborted_status (Sample.parser_of Sample.soup_details)
              (Sample.world None (Some "disk full")) Sample.five_keys "SESSION" 0 2 (1 # 2)
              "2200000000" "0777777777" st results events "disk full" H eq_refl)
    as (_ & _ & Herr & _ & _ & _ & Hidle).
  by split.
Defined.

(** X9 on the status a started run begins with. *)
Lemma progress_after_cancel_witness :
  is_running (initial_status Sample.five_keys "SESSION" 0) = true ∧
  get_progress (cancel_scraping (initial_status Sample.five_keys "SESSION" 0)).1
    = idle_progress.
Proof.
  split; [by vm_compute|].
  by destruct (progress_after_cancel (initial_status Sample.five_keys "SESSION" 0))
    as [_ H]; [by vm_compute..|].
Defined.

(** X10 on the same status. *)
Lemma cancel_scraping_idempotent_witness :
  (cancel_scraping (initial_status Sample.five_keys "SESSION" 0)).2 = "Scraping cancelled" ∧
  (cancel_scraping (cancel_scraping (initial_status Sample.five_keys "SESSION" 0)).1).2
    = "No scraping process is running".
Proof.
  destruct (cancel_scraping_idempotent (initial_status Sample.five_keys "SESSION" 0))
    as (Htwice & _ & Hfirst & _).
  split; [by apply Hfirst; vm_compute|by rewrite Htwice].
Defined.



(** X14 on one record. *)
Lemma csv_rows_of_records_witness :
  save_results_to_csv
    [(get_vehicle_info (Sample.parser_of Sample.soup_details) Sample.scraper
        (Sample.answering 404 "" "T") "K1").1]
  = Written [fieldnames;
             ["K1"; ""; ""; ""; ""; ""; ""; ""; ""; "failed"; "T"; "HTTP 404"]].
Proof.
  destruct (csv_rows_of_records (Sample.parser_of Sample.soup_details)
              [(get_vehicle_info (Sample.parser_of Sample.soup_details) Sample.scraper
                  (Sample.answering 404 "" "T") "K1").1]) as [Hrows _].
  { constructor; [|constructor]. by eexists _, _, _. }
  rewrite Hrows. by vm_compute.
Defined.

(** X15 on a blank identifier and on a page that is taken. *)
Lemma validate_session_valid_witness :
  validate_session (Sample.parser_of Sample.soup_no_table)
    (Sample.answering 200 "<html/>" "T") (Some "  ")
  = (false, "Session ID is required", []) ∧
  (validate_session (Sample.parser_of Sample.soup_no_table)
     (Sample.answering 200 "<html/>" "T") (Some " SESSION ")).1.1 = true.
Proof.
  split.
  - destruct (validate_session_valid (Sample.parser_of Sample.soup_no_table)
                (Sample.answering 200 "<html/>" "T") (Some "  ")) as [Hblank _].
    by apply Hblank.
  - destruct (validate_session_valid (Sample.parser_of Sample.soup_no_table)
                (Sample.answering 200 "<html/>" "T") (Some " SESSION ")) as [_ Hvalid].
    destruct Hvalid as (_ & _ & Hiff); [by vm_compute|].
    apply Hiff. by exists "<html/>", Sample.soup_no_table.
Defined.


(** X17 on minus one second. *)
Lemma duration_format_negative_witness :
  duration_format (VInt (-1)) = duration_format (VInt 3599) ∧
  duration_format (VInt (-1)) = "59m 59s".
Proof.
  split; [|by vm_compute].
  destruct (duration_format_negative (-1)) as [H _]. by apply H.
Defined.

(** X18 on a dialogue in which two answers are refused. *)
Lemma get_configuration_bounds_witness :
  get_configuration SampleWeb.int_of SampleWeb.float_of_text SampleWeb.stdin
    = Some (SampleWeb.typed_configuration, ["y"]) ∧
  (1 ≤ config_max_workers SampleWeb.typed_configuration ≤ 10)%Z.
Proof.
  assert (H : get_configuration SampleWeb.int_of SampleWeb.float_of_text SampleWeb.stdin
              = Some (SampleWeb.typed_configuration, ["y"])) by by vm_compute.
  split; [exact H|].
  by destruct (get_configuration_bounds _ _ _ _ _ H) as (Hw & _).
Defined.

(** X19 on that configuration and three numbers. *)
Lemma main_counts_every_number_witness :
  ∃ results,
    process_vehicles (Sample.parser_of Sample.soup_details)
      (main_scraper SampleWeb.typed_configuration "SESSION") Sample.second_fails
      (λ _, "T") [2; 0; 1]%nat ["K1"; "K2"; "K3"] = inr results ∧
    (successful results + failed results = 3)%nat.
Proof.
  assert (H : get_configuration SampleWeb.int_of SampleWeb.float_of_text SampleWeb.stdin
              = Some (SampleWeb.typed_configuration, ["y"])) by by vm_compute.
  assert (Hp : [2; 0; 1]%nat ≡ₚ seq 0 (length ["K1"; "K2"; "K3"])).
  { apply (bool_decide_unpack _). by vm_compute. }
  destruct (main_counts_every_number (Sample.parser_of Sample.soup_details)
              _ _ _ _ _ "SESSION" Sample.second_fails (λ _, "T") _ _ H Hp)
    as (results & Hr & _ & Hsum & _).
  by exists results.
Defined.

(** X20 on the two numbers typed, the first of them twice. *)
Lemma started_run_covers_numbers_witness :
  ∃ final results events,
    run_scraping_task (Sample.parser_of Sample.soup_details) (Sample.world None None)
      (initial_status ["AB-1234"; "CD 5678"] "SESSION" 0) ["AB-1234"; "CD 5678"]
      "SESSION" 3 (1 # 2) "2200000000" "0777777777" = (final, results, events) ∧
    (λ r : dict, r !! "vehicle_number") <$> results = [Some "AB-1234"; Some "CD 5678"].
Proof.
  destruct (start_scraping SampleWeb.idle_status 0 (SampleWeb.manual_form SampleWeb.typed))
    as [[resp st'] thread] eqn:H.
  assert (H' := H). vm_compute in H'. injection H' as <- <- <-.
  destruct (started_run_covers_numbers (Sample.parser_of Sample.soup_details)
              _ _ _ _ _ _ (Sample.world None None) H)
    as (final & results & events & Hrun & Hkeys & _); [done|].
  exists final, results, events. split; [exact Hrun|exact Hkeys].
Defined.

(** X21 on the engine number of the example page. *)
Lemma extracted_values_trimmed_witness :
  parse_vehicle_info (Sample.parser_of Sample.soup_details) "" "K1" "T" !! "engine_number"
    = Some "ABC123" ∧
  Str.strip "ABC123" = "ABC123".
Proof.
  assert (H : parse_vehicle_info (Sample.parser_of Sample.soup_details) "" "K1" "T"
                !! "engine_number" = Some "ABC123") by by vm_compute.
  split; [exact H|].
  by destruct (extracted_values_trimmed (Sample.parser_of Sample.soup_details) ""
                 Sample.soup_details "K1" "T" "engine_number" "ABC123" eq_refl
                 ltac:(decide_elem) H) as [Ht _].
Defined.
